(** * TinyLink: the link engine of a URL shortener, embedded from its source

    The repository holds two versions of one Express server:
    - [src/unnamed/part_000], the full server (validation of the target host,
      collision fallback, error pages); it is embedded in [Module Part000];
    - [src/server.js], the shorter variant of the same routes; it is embedded
      in [Module Server].

    Both talk to one Postgres table [links] through [db.query].  The table and
    the platform functions the handlers call (the WHATWG [URL] parser, the DNS
    resolver, the random sources) are not code of the handlers: the table is
    modelled as a list of rows with the statements the handlers send, the
    platform functions are fields of an environment record [Env].

    JavaScript strings are sequences of UTF-16 code units; they are embedded
    as lists of code units.  The body fields [FullUrl] and [customCode] are
    strings or absent.  The time of a request ([now()] of the database) is an
    argument of its handler.  A statement fails only by violating a
    constraint of the table; a lost connection is outside the model, so the
    [catch] branches around the SELECT and UPDATE statements are written but
    never taken. *)

From Stdlib Require Import List NArith Bool Lia String Ascii Arith.
From Stdlib Require Import Permutation Sorted.
Import ListNotations.

Set Implicit Arguments.

(* ================================================================== *)
(** * JavaScript strings *)
(* ================================================================== *)

Module JS.

(** A string value: its UTF-16 code units. *)
Definition jsstring := list N.

(** A literal of the source, all of whose characters are below U+0100. *)
Definition js (s : string) : jsstring :=
  map N_of_ascii (list_ascii_of_string s).

(** [s === t] on strings. *)
Fixpoint eqb (s t : jsstring) : bool :=
  match s, t with
  | [], [] => true
  | c :: s', d :: t' => (c =? d)%N && eqb s' t'
  | _, _ => false
  end.

(** [Boolean(s)]: a string is truthy unless it is empty. *)
Definition truthy (s : jsstring) : bool :=
  match s with [] => false | _ :: _ => true end.

(** [s.startsWith(p)]. *)
Fixpoint startsWith (s p : jsstring) {struct p} : bool :=
  match p with
  | [] => true
  | c :: p' =>
      match s with
      | [] => false
      | d :: s' => (d =? c)%N && startsWith s' p'
      end
  end.

(** [s.endsWith(p)]. *)
Definition endsWith (s p : jsstring) : bool :=
  startsWith (rev s) (rev p).

(** [s.includes(p)]: [p] occurs at some position of [s]. *)
Fixpoint includes (s p : jsstring) : bool :=
  startsWith s p ||
  match s with
  | [] => false
  | _ :: s' => includes s' p
  end.

(** [xs.includes(s)] on an array of strings. *)
Definition array_includes (xs : list jsstring) (s : jsstring) : bool :=
  existsb (eqb s) xs.

(** White space and line terminators, the code units [trim] strips
    (ECMA-262, TrimString): TAB, LF, VT, FF, CR, SP, NBSP, U+1680,
    U+2000 to U+200A, U+2028, U+2029, U+202F, U+205F, U+3000, U+FEFF. *)
Definition isWhiteSpace (c : N) : bool :=
  ((9 <=? c) && (c <=? 13) || (c =? 32) || (c =? 160) || (c =? 5760)
   || (8192 <=? c) && (c <=? 8202) || (c =? 8232) || (c =? 8233)
   || (c =? 8239) || (c =? 8287) || (c =? 12288) || (c =? 65279))%N.

Fixpoint trimStart (s : jsstring) : jsstring :=
  match s with
  | [] => []
  | c :: s' => if isWhiteSpace c then trimStart s' else s
  end.

Definition trimEnd (s : jsstring) : jsstring :=
  rev (trimStart (rev s)).

(** [s.trim()]. *)
Definition trim (s : jsstring) : jsstring :=
  trimEnd (trimStart s).

(** [s.split(sep)] for a separator of one code unit: the pieces between the
    occurrences of [sep]; there is always at least one piece. *)
Fixpoint split (s : jsstring) (sep : N) : list jsstring :=
  match s with
  | [] => [[]]
  | c :: s' =>
      if (c =? sep)%N then [] :: split s' sep
      else match split s' sep with
           | piece :: pieces => (c :: piece) :: pieces
           | [] => [[c]]
           end
  end.

(** Decimal digits of a number, most significant first. *)
Fixpoint digits (fuel : nat) (n : N) : jsstring :=
  match fuel with
  | O => []
  | S fuel' =>
      if (n <? 10)%N then [(48 + n)%N]
      else digits fuel' (n / 10)%N ++ [(48 + n mod 10)%N]
  end.

(** [String(n)] for a non-negative integer [n], as in [str + n]. *)
Definition Number_toString (n : N) : jsstring :=
  digits (S (N.to_nat n)) n.

(** ** Regular expressions

    The two patterns of the source are sequences of [^], [$] and a bounded
    repetition of a character class.  [test] is the backtracking matcher of
    the language on that fragment, without flags: it tries every start
    position, [^] matches at position 0 only and [$] at the end of the input
    only. *)

Definition CharClass := list (N * N).

Definition in_class (cls : CharClass) (c : N) : bool :=
  existsb (fun r => (fst r <=? c) && (c <=? snd r))%N cls.

Inductive Atom :=
| Bol                                                   (* ^ *)
| Eol                                                   (* $ *)
| Rep (cls : CharClass) (min : nat) (max : option nat). (* [cls]{min,max} *)

Definition Regex := list Atom.

Definition max_allows (max : option nat) : bool :=
  match max with Some O => false | _ => true end.

(** Greedy repetition: take one more character if the class and the upper
    bound allow it, and fall back to stopping here when the rest fails. *)
Fixpoint match_rep (cls : CharClass) (k : bool -> jsstring -> bool)
    (min : nat) (max : option nat) (at_start : bool) (s : jsstring) : bool :=
  let stop := match min with O => k at_start s | S _ => false end in
  match s with
  | [] => stop
  | c :: s' =>
      if in_class cls c && max_allows max
      then match_rep cls k (Nat.pred min) (option_map Nat.pred max) false s'
           || stop
      else stop
  end.

Fixpoint match_seq (re : Regex) (at_start : bool) (s : jsstring) : bool :=
  match re with
  | [] => true
  | Bol :: re' => at_start && match_seq re' at_start s
  | Eol :: re' => negb (truthy s) && match_seq re' at_start s
  | Rep cls min max :: re' => match_rep cls (match_seq re') min max at_start s
  end.

Fixpoint test_from (re : Regex) (at_start : bool) (s : jsstring) : bool :=
  match_seq re at_start s ||
  match s with
  | [] => false
  | _ :: s' => test_from re false s'
  end.

(** [re.test(s)]. *)
Definition test (re : Regex) (s : jsstring) : bool :=
  test_from re true s.

End JS.

Import JS.

(* ================================================================== *)
(** * The [links] table and the statements sent to it *)
(* ================================================================== *)

Module Store.

(** One row of [links]. *)
Record Link := mkLink {
  code : jsstring;
  target_url : jsstring;
  total_clicks : N;
  last_clicked : option N;
  created_at : N;
  deleted : bool
}.

Definition Table := list Link.

(** What a rejected promise carries. *)
Inductive Exn :=
| PgError (sqlstate : jsstring)   (* err.code of a database error *)
| TypeError.

(** The state a request runs on: the table, and how much of the random
    stream has been consumed. *)
Record World := mkWorld {
  links : Table;
  drawn : nat
}.

(** Handlers are [async] functions over the shared connection: a computation
    reads and writes the world and either returns a value or throws. *)
Inductive Outcome (A : Type) :=
| Returned (a : A)
| Thrown (e : Exn).
Arguments Thrown {A} e.

Definition M (A : Type) : Type := World -> Outcome A * World.

Definition ret {A} (a : A) : M A := fun w => (Returned a, w).

Definition throw {A} (e : Exn) : M A := fun w => (Thrown e, w).

Definition bind {A B} (m : M A) (k : A -> M B) : M B :=
  fun w =>
    match m w with
    | (Returned a, w') => k a w'
    | (Thrown e, w') => (Thrown e, w')
    end.

(** [try { m } catch (err) { h err }]. *)
Definition try_catch {A} (m : M A) (h : Exn -> M A) : M A :=
  fun w =>
    match m w with
    | (Returned a, w') => (Returned a, w')
    | (Thrown e, w') => h e w'
    end.

Declare Scope js_scope.
Delimit Scope js_scope with js.
Notation "x <- m ;; k" := (bind m (fun x => k))
  (at level 61, m at next level, right associativity) : js_scope.

(** The result object of [db.query]: the rows, [rowCount] their number. *)
Definition rowCount {A} (rows : list A) : N := N.of_nat (List.length rows).

Definition has_code (c : jsstring) (l : Link) : bool := JS.eqb (code l) c.

Definition is_live (c : jsstring) (l : Link) : bool :=
  has_code c l && negb (deleted l).

(** [SELECT 1 FROM links WHERE code = $1]. *)
Definition select_code (c : jsstring) : M (list N) :=
  fun w => (Returned (map (fun _ => 1%N) (filter (has_code c) (links w))), w).

(** Modelled from the spec: the declaration of the table [links] is not in
    the source.  Section 6 gives its columns and defaults: [code] (unique),
    [target_url], [total_clicks] (default 0), [last_clicked] (nullable),
    [created_at] (default now), [deleted] (default false). *)
Definition new_row (now : N) (c url : jsstring) : Link :=
  {| code := c; target_url := url; total_clicks := 0; last_clicked := None;
     created_at := now; deleted := false |}.

(** Modelled from the spec: the constraints of the table [links], whose
    declaration is not in the source.  [code] is unique over all rows,
    deleted or not (section 3), and every row has one, so the column refuses
    NULL.  The result is the SQLSTATE of the violation, if any: 23505 for a
    duplicate (the value the full server tests for), 23502 for a NULL. *)
Definition violation (c : option jsstring) (t : Table) : option jsstring :=
  match c with
  | None => Some (js "23502")
  | Some c => if existsb (has_code c) t then Some (js "23505") else None
  end.

(** [INSERT INTO links(code, target_url) VALUES ($1, $2)]. *)
Definition insert_link (now : N) (c : option jsstring) (url : jsstring)
  : M unit :=
  fun w =>
    match violation c (links w) with
    | Some sqlstate => (Thrown (PgError sqlstate), w)
    | None =>
        (Returned tt,
         {| links := links w
                     ++ [new_row now (match c with Some c => c | None => [] end)
                                 url];
            drawn := drawn w |})
    end.

Definition click (now : N) (l : Link) : Link :=
  {| code := code l; target_url := target_url l;
     total_clicks := total_clicks l + 1; last_clicked := Some now;
     created_at := created_at l; deleted := deleted l |}.

(** [UPDATE links SET total_clicks = total_clicks + 1, last_clicked = now()
     WHERE code = $1 AND deleted = false RETURNING target_url]. *)
Definition update_click (now : N) (c : jsstring) : M (list jsstring) :=
  fun w =>
    (Returned (map target_url (filter (is_live c) (links w))),
     {| links := map (fun l => if is_live c l then click now l else l)
                     (links w);
        drawn := drawn w |}).

Definition mark (l : Link) : Link :=
  {| code := code l; target_url := target_url l;
     total_clicks := total_clicks l; last_clicked := last_clicked l;
     created_at := created_at l; deleted := true |}.

(** [UPDATE links SET deleted = true WHERE code = $1]. *)
Definition update_deleted (c : jsstring) : M unit :=
  fun w =>
    (Returned tt,
     {| links := map (fun l => if has_code c l then mark l else l) (links w);
        drawn := drawn w |}).

(** [ORDER BY created_at DESC]; rows of equal [created_at] keep the order of
    the table. *)
Fixpoint insert_desc (l : Link) (sorted : list Link) : list Link :=
  match sorted with
  | [] => [l]
  | x :: rest =>
      if (created_at x <? created_at l)%N then l :: sorted
      else x :: insert_desc l rest
  end.

Definition order_by_created_desc (rows : list Link) : list Link :=
  fold_right insert_desc [] rows.

(** The columns the listing selects. *)
Record Listed := mkListed {
  listed_code : jsstring;
  listed_target_url : jsstring;
  listed_total_clicks : N;
  listed_last_clicked : option N
}.

Definition columns (l : Link) : Listed :=
  {| listed_code := code l; listed_target_url := target_url l;
     listed_total_clicks := total_clicks l;
     listed_last_clicked := last_clicked l |}.

(** [SELECT code, target_url, total_clicks, last_clicked FROM links
     WHERE deleted = false ORDER BY created_at DESC]. *)
Definition select_live : M (list Listed) :=
  fun w =>
    (Returned (map columns
                 (order_by_created_desc
                    (filter (fun l => negb (deleted l)) (links w)))), w).

(** What a handler answers. *)
Inductive Response :=
| Redirect (location : jsstring)                        (* res.redirect *)
| Send (status : N) (body : jsstring)                   (* res.status().send *)
| Render (rows : list Listed) (error : option jsstring). (* res.render("index") *)

(** The platform functions the handlers call. *)
Record URL := mkURL {
  protocol : jsstring;
  hostname : jsstring;
  href : jsstring          (* what toString() returns *)
}.

Record Env := mkEnv {
  URL_new : jsstring -> option URL;   (* new URL(s); None when it throws *)
  dnsLookup : jsstring -> bool;       (* dns.promises.lookup resolves *)
  entropy : nat -> N                  (* the random stream *)
}.

Definition alphabet : jsstring :=
  js "abcdefghijklmnopqrstuvwxyzABCDEFGHIJKLMNOPQRSTUVWXYZ0123456789".

(** [customAlphabet(alphabet, size)()] of nanoid: [size] symbols of the
    alphabet, each chosen by the next value of the random stream. *)
Definition customAlphabet (E : Env) (abc : jsstring) (size : nat)
  : M jsstring :=
  fun w =>
    (Returned (map (fun i => nth (N.to_nat (entropy E (drawn w + i)
                                             mod N.of_nat (List.length abc)))
                                 abc 0%N)
                   (seq 0 size)),
     {| links := links w; drawn := drawn w + size |}).

(** [Math.floor(Math.random() * n)]: an integer from 0 to [n - 1]. *)
Definition random_below (E : Env) (n : N) : M N :=
  fun w =>
    (Returned (entropy E (drawn w) mod n)%N,
     {| links := links w; drawn := S (drawn w) |}).

End Store.

Import Store.
Local Open Scope js_scope.

(** [!v] for a value that is a string, [null] or [undefined]. *)
Definition falsy (v : option jsstring) : bool :=
  match v with
  | None => true
  | Some s => negb (truthy s)
  end.

(** [customCode && customCode.trim() ? customCode.trim() : null]. *)
Definition trimmed_or_null (customCode : option jsstring)
  : option jsstring :=
  match customCode with
  | None => None
  | Some cc =>
      if truthy cc && truthy (trim cc) then Some (trim cc) else None
  end.

(* ================================================================== *)
(** * The full server, [src/unnamed/part_000] *)
(* ================================================================== *)

Module Part000.

(** [/^[a-zA-Z0-9.-]+$/] *)
Definition re_hostname : Regex :=
  [Bol; Rep [(97, 122); (65, 90); (48, 57); (46, 46); (45, 45)]%N 1 None; Eol].

(** [/^[A-Za-z0-9]{3,8}$/] *)
Definition re_code : Regex :=
  [Bol; Rep [(65, 90); (97, 122); (48, 57)]%N 3 (Some 8); Eol].

(** The [for (const lab of labels)] loop of [isValidUrlResolved]: [false] at
    the first label that is refused. *)
Fixpoint labels_pass (labels : list jsstring) : bool :=
  match labels with
  | [] => true
  | lab :: rest =>
      if negb (truthy lab) then false
      else if startsWith lab (js "-") || endsWith lab (js "-") then false
      else labels_pass rest
  end.

Section Handlers.

Variable E : Env.

Definition nano : M jsstring := customAlphabet E alphabet 6.

Definition fetchLinks : M (list Listed) :=
  r <- select_live ;; ret r.

(** [isValidUrlResolved(urlString)]; it reads the environment only. *)
Definition isValidUrlResolved (urlString : jsstring) : bool :=
  match URL_new E urlString with
  | None => false
  | Some url =>
      if negb (array_includes [js "http:"; js "https:"] (protocol url))
      then false
      else
        let hostname := hostname url in
        if negb (truthy hostname) || negb (includes hostname (js "."))
        then false
        else if endsWith hostname (js ".") then false
        else if negb (test re_hostname hostname) then false
        else
          let labels := split hostname 46 in
          if negb (labels_pass labels) then false
          else dnsLookup E hostname
  end.

(** [const links = await fetchLinks();
     return res.render("index", { links, baseUrl: BASE_URL, error })]. *)
Definition render_error (error : jsstring) : M Response :=
  rows <- fetchLinks ;; ret (Render rows (Some error)).

(** [app.get("/")]. *)
Definition get_root : M Response :=
  try_catch (rows <- fetchLinks ;; ret (Render rows None))
            (fun _ => ret (Send 500 (js "Server error"))).

(** The scheme prefix of [app.post("/shorten")]. *)
Definition normalize (FullUrl : jsstring) : jsstring :=
  let normalized := trim FullUrl in
  if negb (startsWith normalized (js "http://"))
     && negb (startsWith normalized (js "https://"))
  then js "https://" ++ normalized
  else normalized.

(** The [for (let i = 0; i < 10; i++)] loop, [n] iterations left: the first
    candidate with no row is kept; a failed query only loses the attempt. *)
Fixpoint draw_code (n : nat) : M (option jsstring) :=
  match n with
  | O => ret None
  | S n' =>
      candidate <- nano ;;
      free <- try_catch
                (exists_ <- select_code candidate ;;
                 ret (rowCount exists_ =? 0)%N)
                (fun _ => ret false) ;;
      if free then ret (Some candidate) else draw_code n'
  end.

Definition msg_collided : jsstring :=
  js "Generated code collided " ++ [8212%N] ++ js " please try again.".

(** The final [try { INSERT } catch (err) { ... }]. *)
Definition insert_and_redirect (now : N) (code : option jsstring)
    (normalized : jsstring) : M Response :=
  try_catch
    (_ <- insert_link now code normalized ;; ret (Redirect (js "/")))
    (fun err =>
       match err with
       | PgError sqlstate =>
           if JS.eqb sqlstate (js "23505") then render_error msg_collided
           else render_error (js "Server error creating short link")
       | TypeError => render_error (js "Server error creating short link")
       end).

(** The branch [if (code) { ... }] of [app.post("/shorten")]: a custom code
    is checked against the pattern, then looked up, then inserted. *)
Definition custom_branch (now : N) (code normalized : jsstring)
  : M Response :=
  if negb (test re_code code)
  then render_error (js "Custom code must be 3-8 alphanumeric characters")
  else
    returned <-
      try_catch
        (exists_ <- select_code code ;;
         if (0 <? rowCount exists_)%N
         then r <- render_error (js "Custom code already exists") ;;
              ret (Some r)
         else ret None)
        (fun _ =>
           r <- render_error (js "Server error checking custom code") ;;
           ret (Some r)) ;;
    match returned with
    | Some r => ret r
    | None => insert_and_redirect now (Some code) normalized
    end.

(** The branch [else { ... }]: ten draws, then the suffixed code. *)
Definition generated_branch (now : N) (normalized : jsstring)
  : M Response :=
  code <- draw_code 10 ;;
  code <- (if falsy code
           then id <- nano ;;
                n <- random_below E 1000 ;;
                ret (Some (id ++ Number_toString n))
           else ret code) ;;
  insert_and_redirect now code normalized.

(** [app.post("/shorten")] with the body fields [FullUrl] and [customCode]. *)
Definition post_shorten (now : N) (FullUrl customCode : option jsstring)
  : M Response :=
  if falsy FullUrl then render_error (js "Please provide a URL.")
  else
    let normalized :=
      normalize (match FullUrl with Some s => s | None => [] end) in
    let ok := isValidUrlResolved normalized in
    if negb ok then
      render_error (js "Invalid or non-resolving URL. Please enter a valid domain (e.g. example.com).")
    else
      match trimmed_or_null customCode with
      | Some code =>
          if truthy code then custom_branch now code normalized
          else generated_branch now normalized
      | None => generated_branch now normalized
      end.

(** [app.get("/:code")]. *)
Definition get_code (now : N) (code : jsstring) : M Response :=
  try_catch
    (r <- update_click now code ;;
     if (rowCount r =? 0)%N then ret (Send 404 (js "Not found"))
     else match r with
          | target :: _ => ret (Redirect target)
          | [] => throw TypeError
          end)
    (fun _ => ret (Send 500 (js "Server error"))).

(** [app.post("/delete/:code")]. *)
Definition post_delete (code : jsstring) : M Response :=
  try_catch
    (_ <- update_deleted code ;; ret (Redirect (js "/")))
    (fun _ => render_error (js "Server error deleting link")).

End Handlers.

End Part000.

(* ================================================================== *)
(** * The shorter variant, [src/server.js] *)
(* ================================================================== *)

Module Server.

(** [/^[A-Za-z0-9]{3,8}$/] *)
Definition re_code : Regex :=
  [Bol; Rep [(65, 90); (97, 122); (48, 57)]%N 3 (Some 8); Eol].

Section Handlers.

Variable E : Env.

Definition nano : M jsstring := customAlphabet E alphabet 6.

(** [app.get("/")]. *)
Definition get_root : M Response :=
  try_catch (rows <- select_live ;; ret (Render rows None))
            (fun _ => ret (Send 500 (js "Server error"))).

(** The two [new URL] attempts: the serialisation of the input, or of the
    input behind ["https://"]; [None] when both throw. *)
Definition normalize (FullUrl : jsstring) : option jsstring :=
  match URL_new E FullUrl with
  | Some u => Some (href u)
  | None =>
      match URL_new E (js "https://" ++ FullUrl) with
      | Some u => Some (href u)
      | None => None
      end
  end.

(** The [for (let i = 0; i < 10; i++)] loop, [n] iterations left. *)
Fixpoint draw_code (n : nat) : M (option jsstring) :=
  match n with
  | O => ret None
  | S n' =>
      candidate <- nano ;;
      exists_ <- select_code candidate ;;
      if (rowCount exists_ =? 0)%N then ret (Some candidate)
      else draw_code n'
  end.

(** The branch [if (code) { ... }]: the look-up comes before the pattern. *)
Definition custom_branch (now : N) (code normalized : jsstring)
  : M Response :=
  exists_ <- select_code code ;;
  if (0 <? rowCount exists_)%N
  then ret (Send 409 (js "Custom code already exists"))
  else if negb (test re_code code)
  then ret (Send 400 (js "Code must be 3-8 letters/digits"))
  else
    _ <- insert_link now (Some code) normalized ;;
    ret (Redirect (js "/")).

(** The branch [else { ... }]: ten draws; [code] stays [null] when none of
    them is free. *)
Definition generated_branch (now : N) (normalized : jsstring)
  : M Response :=
  code <- draw_code 10 ;;
  _ <- insert_link now code normalized ;;
  ret (Redirect (js "/")).

(** [app.post("/shorten")]. *)
Definition post_shorten (now : N) (FullUrl customCode : option jsstring)
  : M Response :=
  if falsy FullUrl then ret (Send 400 (js "URL required"))
  else
    match normalize (match FullUrl with Some s => s | None => [] end) with
    | None => ret (Send 400 (js "Invalid URL"))
    | Some normalized =>
        match trimmed_or_null customCode with
        | Some code =>
            if truthy code then custom_branch now code normalized
            else generated_branch now normalized
        | None => generated_branch now normalized
        end
    end.

(** [app.get("/:code")]. *)
Definition get_code (now : N) (code : jsstring) : M Response :=
  r <- update_click now code ;;
  if (rowCount r =? 0)%N then ret (Send 404 (js "Not found"))
  else match r with
       | target :: _ => ret (Redirect target)
       | [] => throw TypeError
       end.

(** [app.post("/delete/:code")]. *)
Definition post_delete (code : jsstring) : M Response :=
  _ <- update_deleted code ;; ret (Redirect (js "/")).

End Handlers.

End Server.

(* ================================================================== *)
(** * Requests and runs *)
(* ================================================================== *)

Inductive Request :=
| PostShorten (now : N) (FullUrl customCode : option jsstring)
| GetCode (now : N) (code : jsstring)
| PostDelete (code : jsstring)
| GetRoot.

(** The route table of [src/unnamed/part_000]. *)
Definition handle (E : Env) (r : Request) : M Response :=
  match r with
  | PostShorten now FullUrl customCode =>
      Part000.post_shorten E now FullUrl customCode
  | GetCode now code => Part000.get_code now code
  | PostDelete code => Part000.post_delete code
  | GetRoot => Part000.get_root
  end.

(** Requests served one after the other: what each was answered, and the
    world left behind. *)
Fixpoint serve (E : Env) (rs : list Request) (w : World)
  : list (Request * Outcome Response) * World :=
  match rs with
  | [] => ([], w)
  | r :: rs' =>
      let (o, w1) := handle E r w in
      let (log, w2) := serve E rs' w1 in
      ((r, o) :: log, w2)
  end.

(** The row a code names: the first (by uniqueness, the only) row of it. *)
Definition lookup (c : jsstring) (t : Table) : option Link :=
  find (has_code c) t.

(** A request for [c] that was answered by a redirect. *)
Definition is_hit (c : jsstring) (entry : Request * Outcome Response)
  : bool :=
  match entry with
  | (GetCode _ c', Returned (Redirect _)) => JS.eqb c' c
  | _ => false
  end.

Definition hits (c : jsstring) (log : list (Request * Outcome Response))
  : N :=
  N.of_nat (List.length (filter (is_hit c) log)).

(** [n] visits of [c] in a row, at the times [nows]. *)
Definition visits (c : jsstring) (nows : list N) : list Request :=
  map (fun now => GetCode now c) nows.

(* ================================================================== *)
(** * The vocabulary of the specification *)
(* ================================================================== *)

Definition ascii_letter (c : N) : bool :=
  ((65 <=? c) && (c <=? 90) || (97 <=? c) && (c <=? 122))%N.

Definition ascii_digit (c : N) : bool :=
  ((48 <=? c) && (c <=? 57))%N.

Definition alphanumeric (s : jsstring) : Prop :=
  Forall (fun c => ascii_letter c || ascii_digit c = true) s.

(** [s] matches [[A-Za-z0-9]{3,8}] exactly. *)
Definition code_syntax (s : jsstring) : Prop :=
  alphanumeric s /\ 3 <= List.length s <= 8.

Definition hyphen : N := 45.
Definition dot : N := 46.

(** The pieces of a host name between its dots. *)
Definition is_label (lab h : jsstring) : Prop :=
  In lab (split h dot).

(** A label is not empty and neither starts nor ends with a hyphen. *)
Definition label_ok (lab : jsstring) : Prop :=
  lab <> [] /\ (forall r, lab <> hyphen :: r)
            /\ (forall p, lab <> p ++ [hyphen]).

(** The conditions of section 4.1 on a host name. *)
Record hostname_ok (h : jsstring) : Prop := {
  host_nonempty : h <> [];
  host_has_dot : In dot h;
  host_no_final_dot : forall p, h <> p ++ [dot];
  host_chars : forall c, In c h ->
      ascii_letter c || ascii_digit c = true \/ c = hyphen \/ c = dot;
  host_labels : forall lab, is_label lab h -> label_ok lab
}.

(** The ways a host name breaks those conditions. *)
Definition hostname_bad (h : jsstring) : Prop :=
  h = []
  \/ ~ In dot h
  \/ (exists p, h = p ++ [dot])
  \/ (exists c, In c h /\ ascii_letter c || ascii_digit c = false
                 /\ c <> hyphen /\ c <> dot)
  \/ (exists lab, is_label lab h
                   /\ (lab = [] \/ (exists r, lab = hyphen :: r)
                                \/ (exists p, lab = p ++ [hyphen]))).

(** The scheme prefixes the creation request recognises. *)
Definition has_scheme_prefix (s : jsstring) : Prop :=
  exists rest, s = js "http://" ++ rest \/ s = js "https://" ++ rest.

Definition msg_invalid : jsstring :=
  js "Invalid or non-resolving URL. Please enter a valid domain (e.g. example.com).".

(** The number a string of decimal digits denotes. *)
Definition decimal_value (ds : jsstring) : N :=
  fold_left (fun acc d => 10 * acc + (d - 48))%N ds 0%N.

(** A world whose table obeys the uniqueness constraint on [code]. *)
Definition unique_codes (w : World) : Prop :=
  NoDup (map code (links w)).

(** What the upper bound of a repetition allows. *)
Definition within (max : option nat) (n : nat) : Prop :=
  match max with
  | Some m => n <= m
  | None => True
  end.

(** What [fetchLinks] returns on a world. *)
Definition live_rows (w : World) : list Listed :=
  map columns
      (order_by_created_desc (filter (fun l => negb (deleted l)) (links w))).

(** A code that already has a row. *)
Definition taken (c : jsstring) (w : World) : bool :=
  existsb (has_code c) (links w).

(** The code the [i]-th call of [nano()] returns when the calls start on the
    world [w] (six values of the random stream per call). *)
Definition nth_draw (E : Env) (w : World) (i : nat) : jsstring :=
  match fst (Part000.nano E {| links := links w;
                               drawn := drawn w + 6 * i |}) with
  | Returned s => s
  | Thrown _ => []
  end.

(** The suffixed code of the fallback: the eleventh draw, then the decimal
    digits of the next random value below 1000. *)
Definition fallback_code (E : Env) (w : World) : jsstring :=
  nth_draw E w 10 ++ Number_toString (entropy E (drawn w + 66) mod 1000)%N.

(** Where the code of a new row comes from. *)
Inductive CodeOrigin (E : Env) (w : World) (customCode : option jsstring)
  : jsstring -> Prop :=
| FromCustom c :
    trimmed_or_null customCode = Some c ->
    test Part000.re_code c = true ->
    CodeOrigin E w customCode c
| FromDraw i :
    trimmed_or_null customCode = None ->
    i < 10 ->
    CodeOrigin E w customCode (nth_draw E w i)
| FromFallback :
    trimmed_or_null customCode = None ->
    (forall i, i < 10 -> taken (nth_draw E w i) w = true) ->
    CodeOrigin E w customCode (fallback_code E w).

(** What a creation request can do: answer the index page with a message
    and leave the table alone, or add one row and redirect. *)
Inductive ShortenResult (E : Env) (now : N) (FullUrl customCode : option jsstring)
    (w : World) : Response -> World -> Prop :=
| Refused msg w' :
    links w' = links w ->
    drawn w <= drawn w' ->
    ShortenResult E now FullUrl customCode w
      (Render (live_rows w) (Some msg)) w'
| Created raw c w' :
    FullUrl = Some raw ->
    truthy raw = true ->
    Part000.isValidUrlResolved E (Part000.normalize raw) = true ->
    CodeOrigin E w customCode c ->
    taken c w = false ->
    links w' = links w ++ [new_row now c (Part000.normalize raw)] ->
    drawn w <= drawn w' ->
    ShortenResult E now FullUrl customCode w (Redirect (js "/")) w'.

(** [a] may stand before [b] in a listing: it is not older. *)
Definition newest_first (a b : Link) : Prop :=
  (created_at b <= created_at a)%N.

(** What identifies a row for good: its code, its target and its date. *)
Definition identity_of (l : Link) : jsstring * jsstring * N :=
  (code l, target_url l, created_at l).

(** [join] undoes [split]. *)
Fixpoint join (pieces : list jsstring) (sep : N) : jsstring :=
  match pieces with
  | [] => []
  | [p] => p
  | p :: rest => p ++ sep :: join rest sep
  end.

(* ================================================================== *)
(** * A sample environment

    A small stand-in for the platform, used to run the handlers on concrete
    requests.  [Sample.URL_new] accepts only [http://], [https://] and
    [ftp://] URLs with a plain ASCII host, an optional decimal port and a
    path and query of unreserved characters; on those it returns what the
    platform parser returns (host in lower case, default port dropped, empty
    path turned into [/]).  It refuses everything else. *)
(* ================================================================== *)

Module Sample.

Definition lower (c : N) : N :=
  if ((65 <=? c) && (c <=? 90))%N then (c + 32)%N else c.

(** The longest prefix of [s] whose code units satisfy [p], and the rest. *)
Fixpoint span (p : N -> bool) (s : jsstring) : jsstring * jsstring :=
  match s with
  | [] => ([], [])
  | c :: s' =>
      if p c then let (a, b) := span p s' in (c :: a, b) else ([], s)
  end.

Definition host_char : N -> bool :=
  in_class [(97, 122); (48, 57); (45, 45); (46, 46)]%N.

Definition path_char : N -> bool :=
  in_class [(97, 122); (65, 90); (48, 57); (47, 47); (95, 95); (126, 126);
            (45, 45); (46, 46)]%N.

(** A path segment the platform would resolve away. *)
Definition dot_segment (seg : jsstring) : bool :=
  JS.eqb seg (js ".") || JS.eqb seg (js "..").

Definition query_char : N -> bool :=
  in_class [(97, 122); (65, 90); (48, 57); (61, 61); (38, 38); (95, 95);
            (45, 45)]%N.

(** A label the platform would read as a number or as punycode. *)
Definition special_label (lab : jsstring) : bool :=
  (truthy lab && forallb ascii_digit lab)
  || startsWith lab (js "0x") || startsWith lab (js "xn--").

Definition parse_special (proto : jsstring) (default_port : N)
    (rest : jsstring) : option URL :=
  let (authority, tail) :=
    span (fun c => negb ((c =? 47) || (c =? 63) || (c =? 35))%N) rest in
  let (host, port) := span (fun c => negb (c =? 58)%N) authority in
  let host := map lower host in
  let (path, query) := span (fun c => negb (c =? 63)%N) tail in
  if negb (truthy host) || negb (forallb host_char host)
     || existsb special_label (split host 46)
     || negb (forallb path_char path)
     || existsb dot_segment (split path 47)
     || negb (forallb query_char (tl query))
  then None
  else
    let finish (port_text : jsstring) :=
      Some {| protocol := proto; hostname := host;
              href := proto ++ js "//" ++ host ++ port_text
                      ++ (if truthy path then path else js "/") ++ query |} in
    match port with
    | [] => finish []
    | _ :: ds =>
        if negb (forallb ascii_digit ds) || (65535 <? decimal_value ds)%N
        then None
        else if negb (truthy ds) || (decimal_value ds =? default_port)%N
        then finish []
        else finish (58%N :: Number_toString (decimal_value ds))
    end.

Definition URL_new (s : jsstring) : option URL :=
  if startsWith s (js "https://")
  then parse_special (js "https:") 443 (skipn 8 s)
  else if startsWith s (js "http://")
  then parse_special (js "http:") 80 (skipn 7 s)
  else if startsWith s (js "ftp://")
  then parse_special (js "ftp:") 21 (skipn 6 s)
  else None.

(** The hosts that resolve. *)
Definition dnsLookup (h : jsstring) : bool :=
  array_includes [js "example.com"; js "www.example.com"; js "localhost"] h.

(** A random stream that starts with [values] and goes on with zeros. *)
Definition env (values : list N) : Env :=
  {| Store.URL_new := URL_new;
     Store.dnsLookup := dnsLookup;
     entropy := fun k => nth k values 0%N |}.

Definition row (c url : string) (clicks : N) (gone : bool) : Link :=
  {| code := js c; target_url := js url; total_clicks := clicks;
     last_clicked := None; created_at := 0; deleted := gone |}.

Definition world (rows : list Link) : World :=
  {| links := rows; drawn := 0 |}.

End Sample.

Unset Implicit Arguments.

(* ================================================================== *)
(** * Facts about strings and patterns *)
(* ================================================================== *)

Section StringFacts.

Lemma eqb_eq (s t : jsstring) : JS.eqb s t = true <-> s = t.
Proof.
  revert t; induction s as [|c s IH]; intros [|d t]; simpl;
    try (split; [discriminate | congruence]); try tauto.
  rewrite andb_true_iff, N.eqb_eq, IH.
  split; [intros [-> ->]; reflexivity | intros H; inversion H; auto].
Qed.

Lemma eqb_refl (s : jsstring) : JS.eqb s s = true.
Proof. apply eqb_eq; reflexivity. Qed.

Lemma eqb_neq (s t : jsstring) : JS.eqb s t = false <-> s <> t.
Proof.
  rewrite <- eqb_eq. destruct (JS.eqb s t); split; congruence.
Qed.

Lemma eqb_sym (s t : jsstring) : JS.eqb s t = JS.eqb t s.
Proof.
  destruct (JS.eqb s t) eqn:H.
  - apply eqb_eq in H; subst; symmetry; apply eqb_refl.
  - destruct (JS.eqb t s) eqn:H'; auto.
    apply eqb_eq in H'; subst. rewrite eqb_refl in H; discriminate.
Qed.

(** The class [[A-Za-z0-9]] is the letters and digits. *)
Lemma in_class_alnum (c : N) :
  in_class [(65, 90); (97, 122); (48, 57)]%N c
  = ascii_letter c || ascii_digit c.
Proof.
  unfold in_class, ascii_letter, ascii_digit; simpl.
  rewrite orb_false_r, orb_assoc; reflexivity.
Qed.

(** A repetition followed by [$] takes the whole rest of the input. *)
Lemma match_rep_to_end cls (s : jsstring) :
  forall min max at_start,
    match_rep cls (match_seq [Eol]) min max at_start s = true
    <-> forallb (in_class cls) s = true
        /\ min <= List.length s /\ within max (List.length s).
Proof.
  induction s as [|c s IH]; intros min max at_start.
  - simpl. destruct min as [|min]; simpl.
    + split; [intros _|reflexivity].
      repeat split; [lia|]. destruct max; simpl; lia.
    + split; [discriminate | intros (_ & H & _); lia].
  - cbn [match_rep forallb List.length].
    assert (Hstop : (match min with
                     | O => match_seq [Eol] at_start (c :: s)
                     | S _ => false
                     end) = false) by (destruct min; reflexivity).
    rewrite Hstop.
    destruct (in_class cls c); simpl andb.
    + destruct max as [[|m]|]; simpl max_allows; cbv iota.
      * split; [discriminate | intros (_ & _ & H); simpl in H; lia].
      * rewrite orb_false_r, IH. simpl. split; intros (? & ? & ?);
          repeat split; auto; lia.
      * rewrite orb_false_r, IH. simpl. split; intros (? & ? & ?);
          repeat split; auto; lia.
    + split; [discriminate | intros (H & _); discriminate].
Qed.

(** [^] fails everywhere but at the first position. *)
Lemma test_from_bol_later re (s : jsstring) :
  test_from (Bol :: re) false s = false.
Proof. induction s as [|c s IH]; simpl; auto. Qed.

Lemma test_anchored cls min max (s : jsstring) :
  test [Bol; Rep cls min max; Eol] s = true
  <-> forallb (in_class cls) s = true
      /\ min <= List.length s /\ within max (List.length s).
Proof.
  unfold test. rewrite <- (match_rep_to_end cls s min max true).
  destruct s as [|c s]; cbn [test_from match_seq andb].
  - rewrite orb_false_r; reflexivity.
  - rewrite test_from_bol_later, orb_false_r; reflexivity.
Qed.

Lemma forallb_alnum (s : jsstring) :
  forallb (in_class [(65, 90); (97, 122); (48, 57)]%N) s = true
  <-> alphanumeric s.
Proof.
  unfold alphanumeric. rewrite forallb_forall, Forall_forall.
  split; intros H c Hc; specialize (H c Hc);
    rewrite in_class_alnum in *; exact H.
Qed.

Lemma re_code_syntax (s : jsstring) :
  test Part000.re_code s = true <-> code_syntax s.
Proof.
  unfold Part000.re_code, code_syntax.
  rewrite test_anchored, forallb_alnum. simpl within. tauto.
Qed.

End StringFacts.

(** C5. The custom-code syntax check, [/^[A-Za-z0-9]{3,8}$/.test(code)] in
    both servers, accepts a string exactly when it consists of ASCII letters
    and digits only and has between 3 and 8 code units. *)
Theorem C5_code_pattern_exact (code : jsstring) :
  (test Part000.re_code code = true <-> code_syntax code)
  /\ (test Server.re_code code = true <-> code_syntax code).
Proof.
  split; [|change Server.re_code with Part000.re_code];
    apply re_code_syntax.
Qed.

(* ================================================================== *)
(** * Facts about the table *)
(* ================================================================== *)

Section TableFacts.

Lemma has_code_true c l : has_code c l = true <-> code l = c.
Proof. unfold has_code; apply eqb_eq. Qed.

Lemma has_code_false c l : has_code c l = false <-> code l <> c.
Proof. unfold has_code; apply eqb_neq. Qed.

Lemma is_live_true c l :
  is_live c l = true <-> code l = c /\ deleted l = false.
Proof.
  unfold is_live. rewrite andb_true_iff, has_code_true, negb_true_iff.
  tauto.
Qed.

Lemma world_eta w : {| links := links w; drawn := drawn w |} = w.
Proof. destruct w; reflexivity. Qed.

Lemma map_id_when {A} (f : A -> A) (t : list A) :
  (forall x, In x t -> f x = x) -> map f t = t.
Proof.
  induction t as [|x t IH]; simpl; intros H; auto.
  rewrite H, IH; auto.
Qed.

Lemma filter_none {A} (p : A -> bool) (t : list A) :
  (forall x, In x t -> p x = false) -> filter p t = [].
Proof.
  induction t as [|x t IH]; simpl; intros H; auto.
  rewrite (H x), IH; auto.
Qed.

(** Under the uniqueness constraint a code selects its row and no other. *)
Lemma filter_unique (t : Table) l :
  NoDup (map code t) -> In l t -> filter (has_code (code l)) t = [l].
Proof.
  induction t as [|x t IH]; simpl; intros Hnd Hin; [tauto|].
  inversion Hnd as [|? ? Hx Hnd']; subst.
  destruct Hin as [->|Hin].
  - pose proof (proj2 (has_code_true (code l) l) eq_refl) as ->.
    f_equal. apply filter_none. intros y Hy.
    apply has_code_false. intros Heq. apply Hx. rewrite <- Heq.
    apply in_map; exact Hy.
  - assert (Hne : has_code (code l) x = false).
    { apply has_code_false. intros Heq. apply Hx. rewrite Heq.
      apply in_map; exact Hin. }
    rewrite Hne. apply IH; auto.
Qed.

Lemma filter_live_unique (t : Table) l :
  NoDup (map code t) -> In l t -> deleted l = false ->
  filter (is_live (code l)) t = [l].
Proof.
  intros Hnd Hin Hlive.
  assert (H : filter (is_live (code l)) t
              = filter (fun x => negb (deleted x))
                       (filter (has_code (code l)) t)).
  { clear. induction t as [|x t IH]; simpl; auto.
    unfold is_live at 1. destruct (has_code (code l) x); simpl.
    - rewrite IH; reflexivity.
    - exact IH. }
  rewrite H, filter_unique by assumption. simpl. rewrite Hlive. reflexivity.
Qed.

Lemma lookup_unique (t : Table) l :
  NoDup (map code t) -> In l t -> lookup (code l) t = Some l.
Proof.
  intros Hnd Hin. unfold lookup.
  pose proof (filter_unique t l Hnd Hin) as Hf.
  clear Hnd Hin. induction t as [|x t IH]; simpl in *; [discriminate|].
  destruct (has_code (code l) x).
  - inversion Hf; reflexivity.
  - auto.
Qed.

Lemma lookup_In c (t : Table) l :
  lookup c t = Some l -> In l t /\ code l = c.
Proof.
  unfold lookup. intros H. apply find_some in H.
  rewrite has_code_true in H. exact H.
Qed.

Lemma lookup_none c (t : Table) :
  lookup c t = None <-> forall l, In l t -> code l <> c.
Proof.
  unfold lookup. split.
  - intros H l Hl. apply has_code_false. exact (find_none _ _ H l Hl).
  - intros H. induction t as [|x t IH]; simpl; auto.
    rewrite (proj2 (has_code_false c x)) by (apply H; left; reflexivity).
    apply IH. intros l Hl; apply H; right; exact Hl.
Qed.

(** A statement that rewrites rows without touching [code] moves no row. *)
Lemma lookup_map (f : Link -> Link) c (t : Table) :
  (forall l, code (f l) = code l) ->
  lookup c (map f t) = option_map f (lookup c t).
Proof.
  intros Hf. unfold lookup.
  induction t as [|x t IH]; simpl; auto.
  unfold has_code at 1. rewrite Hf. fold (has_code c x).
  destruct (has_code c x); auto.
Qed.

Lemma map_code_map (f : Link -> Link) (t : Table) :
  (forall l, code (f l) = code l) -> map code (map f t) = map code t.
Proof.
  intros Hf. rewrite map_map. apply map_ext. exact Hf.
Qed.

Lemma lookup_app c (t rows : Table) l :
  lookup c t = Some l -> lookup c (t ++ rows) = Some l.
Proof.
  unfold lookup. induction t as [|x t IH]; simpl; [discriminate|].
  destruct (has_code c x); auto.
Qed.

Lemma existsb_has_code c (t : Table) :
  existsb (has_code c) t = false <-> ~ In c (map code t).
Proof.
  rewrite in_map_iff. split.
  - intros H (l & Hc & Hl).
    pose proof (existsb_exists (has_code c) t) as [_ Hex].
    rewrite Hex in H; [discriminate|].
    exists l; split; auto. apply has_code_true; exact Hc.
  - intros H. destruct (existsb (has_code c) t) eqn:Hex; auto.
    apply existsb_exists in Hex. destruct Hex as (l & Hl & Hc).
    exfalso; apply H. exists l. split; auto. apply has_code_true; exact Hc.
Qed.

End TableFacts.

(* ================================================================== *)
(** * Visiting a code and deleting a code *)
(* ================================================================== *)

Section VisitAndDelete.

(** The one statement of [app.get("/:code")], run. *)
Lemma get_code_run now c w :
  Part000.get_code now c w =
  (Returned match filter (is_live c) (links w) with
            | [] => Send 404 (js "Not found")
            | l :: _ => Redirect (target_url l)
            end,
   {| links := map (fun l => if is_live c l then click now l else l)
                   (links w);
      drawn := drawn w |}).
Proof.
  unfold Part000.get_code, try_catch, bind, update_click, ret, rowCount.
  destruct (filter (is_live c) (links w)); reflexivity.
Qed.

Lemma server_get_code now c w :
  Server.get_code now c w = Part000.get_code now c w.
Proof.
  rewrite get_code_run.
  unfold Server.get_code, bind, update_click, ret, rowCount.
  destruct (filter (is_live c) (links w)); reflexivity.
Qed.

Lemma post_delete_run c w :
  Part000.post_delete c w =
  (Returned (Redirect (js "/")),
   {| links := map (fun l => if has_code c l then mark l else l) (links w);
      drawn := drawn w |}).
Proof. reflexivity. Qed.

Lemma server_post_delete c w :
  Server.post_delete c w = Part000.post_delete c w.
Proof. reflexivity. Qed.

Lemma click_code now c l :
  code (if is_live c l then click now l else l) = code l.
Proof. destruct (is_live c l); reflexivity. Qed.

Lemma mark_code c l :
  code (if has_code c l then mark l else l) = code l.
Proof. destruct (has_code c l); reflexivity. Qed.

(** A visit of a code without a live row changes nothing. *)
Lemma get_code_miss now c w :
  (forall l, In l (links w) -> code l = c -> deleted l = true) ->
  Part000.get_code now c w = (Returned (Send 404 (js "Not found")), w).
Proof.
  intros Hdead.
  assert (Hno : forall l, In l (links w) -> is_live c l = false).
  { intros l Hl. destruct (is_live c l) eqn:H; auto.
    apply is_live_true in H. destruct H as [Hc Hd].
    rewrite (Hdead l Hl Hc) in Hd; discriminate. }
  rewrite get_code_run, filter_none by exact Hno.
  rewrite map_id_when, world_eta; auto.
  intros l Hl. rewrite Hno; auto.
Qed.

End VisitAndDelete.

(** C1. [app.get("/:code")] (resolve) on a table with unique codes: when a
    row with the code and [deleted = false] exists, the answer is a redirect
    to its [target_url], that row gets [total_clicks + 1] and
    [last_clicked = now], and no other row changes; when no such row exists
    (no row at all, or a soft-deleted one) the answer is 404 "Not found" and
    the table is untouched, so the two cases cannot be told apart.  A redirect
    is answered exactly when a live row exists.  Both servers agree. *)
Theorem C1_resolve_live_or_not_found (now : N) (c : jsstring) (w : World) :
  unique_codes w ->
  (forall l, In l (links w) -> code l = c -> deleted l = false ->
     exists w',
       Part000.get_code now c w = (Returned (Redirect (target_url l)), w')
       /\ lookup c (links w')
          = Some {| code := c; target_url := target_url l;
                    total_clicks := total_clicks l + 1;
                    last_clicked := Some now;
                    created_at := created_at l; deleted := false |}
       /\ (forall c', c' <> c -> lookup c' (links w') = lookup c' (links w))
       /\ map code (links w') = map code (links w)
       /\ drawn w' = drawn w)
  /\ ((forall l, In l (links w) -> code l = c -> deleted l = true) ->
      Part000.get_code now c w = (Returned (Send 404 (js "Not found")), w))
  /\ ((exists t, fst (Part000.get_code now c w) = Returned (Redirect t))
      <-> (exists l, In l (links w) /\ code l = c /\ deleted l = false))
  /\ (forall w0,
        (forall l, In l (links w) -> code l = c -> deleted l = true) ->
        (forall l, In l (links w0) -> code l <> c) ->
        fst (Part000.get_code now c w) = fst (Part000.get_code now c w0))
  /\ Server.get_code now c w = Part000.get_code now c w.
Proof.
  intros Huniq.
  split; [|split; [|split; [split|split]]].
  - intros l Hl Hc Hlive. subst c.
    eexists. rewrite get_code_run.
    rewrite (filter_live_unique (links w) l Huniq Hl Hlive).
    split; [reflexivity|]. cbn [links drawn].
    split; [|split; [|split; [|reflexivity]]].
    + rewrite lookup_map by (intros; apply click_code).
      rewrite (lookup_unique (links w) l Huniq Hl). simpl.
      rewrite (proj2 (is_live_true (code l) l) (conj eq_refl Hlive)).
      unfold click. rewrite Hlive. reflexivity.
    + intros c' Hne.
      rewrite lookup_map by (intros; apply click_code).
      destruct (lookup c' (links w)) as [x|] eqn:Hx; simpl; auto.
      apply lookup_In in Hx. destruct Hx as [_ Hx].
      destruct (is_live (code l) x) eqn:Hlx; auto.
      apply is_live_true in Hlx. destruct Hlx; congruence.
    + apply map_code_map. intros; apply click_code.
  - apply get_code_miss.
  - intros [t Ht]. rewrite get_code_run in Ht. simpl in Ht.
    destruct (filter (is_live c) (links w)) as [|l r] eqn:Hf;
      [discriminate|].
    assert (Hin : In l (filter (is_live c) (links w)))
      by (rewrite Hf; left; reflexivity).
    apply filter_In in Hin. destruct Hin as [Hin Hl].
    apply is_live_true in Hl. exists l; tauto.
  - intros (l & Hl & Hc & Hlive). subst c.
    rewrite get_code_run, (filter_live_unique (links w) l Huniq Hl Hlive).
    eexists; reflexivity.
  - intros w0 Hdead Hnone.
    rewrite (get_code_miss now c w Hdead), (get_code_miss now c w0).
    + reflexivity.
    + intros l Hl Hc. exfalso. exact (Hnone l Hl Hc).
  - apply server_get_code.
Qed.

(** A visit of a live code and a visit of a deleted one, run. *)
Lemma C1_witness :
  unique_codes (Sample.world [Sample.row "abc" "https://example.com/" 3 false;
                              Sample.row "old" "https://example.com/" 9 true])
  /\ fst (Part000.get_code 7 (js "abc")
            (Sample.world [Sample.row "abc" "https://example.com/" 3 false;
                           Sample.row "old" "https://example.com/" 9 true]))
     = Returned (Redirect (js "https://example.com/")).
Proof.
  assert (H : unique_codes
                (Sample.world
                   [Sample.row "abc" "https://example.com/" 3 false;
                    Sample.row "old" "https://example.com/" 9 true])).
  { unfold unique_codes; simpl.
    repeat constructor; simpl; intuition discriminate. }
  split; [exact H|].
  destruct (C1_resolve_live_or_not_found 7 (js "abc") _ H) as (Hlive & _).
  destruct (Hlive (Sample.row "abc" "https://example.com/" 3 false))
    as (w' & Hrun & _);
    [left; reflexivity | reflexivity | reflexivity |].
  rewrite Hrun. reflexivity.
Defined.

(** C7. [app.post("/delete/:code")] (mark_deleted) answers with a redirect
    to "/"; running it a second time answers the same and leaves the world
    exactly as the first run left it; every row keeps its code, target and
    counters, and the rows of the code have [deleted = true]; on a code
    without a row nothing changes and no error is answered.  Both servers
    agree. *)
Theorem C7_delete_idempotent (c : jsstring) (w : World) :
  let w1 := snd (Part000.post_delete c w) in
  fst (Part000.post_delete c w) = Returned (Redirect (js "/"))
  /\ Part000.post_delete c w1 = (Returned (Redirect (js "/")), w1)
  /\ Forall2 (fun l l' =>
                l' = {| code := code l; target_url := target_url l;
                        total_clicks := total_clicks l;
                        last_clicked := last_clicked l;
                        created_at := created_at l;
                        deleted := if JS.eqb (code l) c then true
                                   else deleted l |})
             (links w) (links w1)
  /\ drawn w1 = drawn w
  /\ ((forall l, In l (links w) -> code l <> c) ->
      Part000.post_delete c w = (Returned (Redirect (js "/")), w))
  /\ Server.post_delete c w = Part000.post_delete c w.
Proof.
  cbv zeta. rewrite !post_delete_run. cbn [fst snd links drawn].
  split; [reflexivity|]. split; [|split; [|split; [reflexivity|split]]].
  - f_equal. f_equal. rewrite map_map. apply map_ext. intros l.
    destruct (has_code c l) eqn:H; [|rewrite H; reflexivity].
    unfold has_code, mark; simpl. fold (has_code c l). rewrite H.
    reflexivity.
  - induction (links w) as [|l t IH]; simpl; constructor; auto.
    unfold has_code. destruct (JS.eqb (code l) c); [reflexivity|].
    destruct l; reflexivity.
  - intros Hno. rewrite map_id_when, world_eta; auto.
    intros l Hl. rewrite (proj2 (has_code_false c l) (Hno l Hl)).
    reflexivity.
  - reflexivity.
Qed.

(** Deleting a code that has no row. *)
Lemma C7_witness :
  (forall l,
      In l (links (Sample.world
                     [Sample.row "abc" "https://example.com/" 3 false])) ->
      code l <> js "nosuch")
  /\ Part000.post_delete (js "nosuch")
       (Sample.world [Sample.row "abc" "https://example.com/" 3 false])
     = (Returned (Redirect (js "/")),
        Sample.world [Sample.row "abc" "https://example.com/" 3 false]).
Proof.
  assert (H : forall l,
             In l (links (Sample.world
                     [Sample.row "abc" "https://example.com/" 3 false])) ->
             code l <> js "nosuch").
  { intros l [<-|[]]. vm_compute. discriminate. }
  split; [exact H|].
  destruct (C7_delete_idempotent (js "nosuch")
              (Sample.world
                 [Sample.row "abc" "https://example.com/" 3 false]))
    as (_ & _ & _ & _ & Hmiss & _).
  exact (Hmiss H).
Defined.

(* ================================================================== *)
(** * Creating a link *)
(* ================================================================== *)

Section Shorten.

Variable E : Env.

Lemma render_error_run msg w :
  Part000.render_error msg w = (Returned (Render (live_rows w) (Some msg)), w).
Proof. reflexivity. Qed.

Lemma nano_run w :
  Part000.nano E w
  = (Returned (nth_draw E w 0),
     {| links := links w; drawn := drawn w + 6 |}).
Proof.
  unfold nth_draw, Part000.nano, customAlphabet. cbn [fst links drawn].
  rewrite Nat.mul_0_r, Nat.add_0_r. reflexivity.
Qed.

Lemma nth_draw_shift t t' d i :
  nth_draw E {| links := t; drawn := d + 6 |} i
  = nth_draw E {| links := t'; drawn := d |} (S i).
Proof.
  unfold nth_draw, Part000.nano, customAlphabet. cbn [fst links drawn].
  replace (d + 6 + 6 * i) with (d + 6 * S i) by lia. reflexivity.
Qed.

Lemma rowCount_select c (t : Table) :
  (rowCount (map (fun _ : Link => 1%N) (filter (has_code c) t)) =? 0)%N
  = negb (existsb (has_code c) t).
Proof.
  induction t as [|x t IH]; simpl; auto.
  destruct (has_code c x); simpl; auto.
Qed.

(** One iteration of the loop. *)
Lemma draw_code_step n w :
  Part000.draw_code E (S n) w
  = if taken (nth_draw E w 0) w
    then Part000.draw_code E n {| links := links w; drawn := drawn w + 6 |}
    else (Returned (Some (nth_draw E w 0)),
          {| links := links w; drawn := drawn w + 6 |}).
Proof.
  cbn [Part000.draw_code]. unfold bind at 1. rewrite nano_run.
  unfold bind at 1, try_catch, bind, select_code, ret. cbn [links].
  rewrite rowCount_select. unfold taken.
  destruct (existsb (has_code (nth_draw E w 0)) (links w)); reflexivity.
Qed.

(** The loop stops at the first draw that has no row. *)
Lemma draw_code_free n : forall w i,
  i < n ->
  (forall j, j < i -> taken (nth_draw E w j) w = true) ->
  taken (nth_draw E w i) w = false ->
  Part000.draw_code E n w
  = (Returned (Some (nth_draw E w i)),
     {| links := links w; drawn := drawn w + 6 * S i |}).
Proof.
  induction n as [|n IH]; intros w i Hi Hbefore Hfree; [lia|].
  rewrite draw_code_step. destruct i as [|i].
  - rewrite Hfree. reflexivity.
  - rewrite (Hbefore 0) by lia.
    rewrite (IH {| links := links w; drawn := drawn w + 6 |} i).
    + cbn [links drawn]. rewrite (nth_draw_shift (links w) (links w)).
      rewrite world_eta. do 2 f_equal. lia.
    + lia.
    + intros j Hj. unfold taken; cbn [links].
      rewrite (nth_draw_shift (links w) (links w)), world_eta.
      apply (Hbefore (S j)). lia.
    + unfold taken; cbn [links].
      rewrite (nth_draw_shift (links w) (links w)), world_eta.
      exact Hfree.
Qed.

(** The loop gives up after [n] draws that all have a row. *)
Lemma draw_code_exhausted n : forall w,
  (forall j, j < n -> taken (nth_draw E w j) w = true) ->
  Part000.draw_code E n w
  = (Returned None, {| links := links w; drawn := drawn w + 6 * n |}).
Proof.
  induction n as [|n IH]; intros w Hall.
  - cbn. rewrite Nat.add_0_r, world_eta. reflexivity.
  - rewrite draw_code_step, (Hall 0) by lia.
    rewrite IH.
    + cbn [links drawn]. do 2 f_equal. lia.
    + intros j Hj. unfold taken; cbn [links].
      rewrite (nth_draw_shift (links w) (links w)), world_eta.
      apply (Hall (S j)). lia.
Qed.

(** Either some draw among the first [n] is free, or all are taken. *)
Lemma first_free n w :
  (exists i, i < n
             /\ (forall j, j < i -> taken (nth_draw E w j) w = true)
             /\ taken (nth_draw E w i) w = false)
  \/ (forall j, j < n -> taken (nth_draw E w j) w = true).
Proof.
  induction n as [|n [(i & Hi & Hb & Hf)|Hall]].
  - right; intros; lia.
  - left; exists i; repeat split; auto.
  - destruct (taken (nth_draw E w n) w) eqn:Hn.
    + right. intros j Hj.
      destruct (Nat.eq_dec j n) as [->|]; auto. apply Hall; lia.
    + left; exists n; repeat split; auto.
Qed.

Lemma insert_and_redirect_run now c url w :
  Part000.insert_and_redirect now (Some c) url w
  = if taken c w
    then (Returned (Render (live_rows w) (Some Part000.msg_collided)), w)
    else (Returned (Redirect (js "/")),
          {| links := links w ++ [new_row now c url]; drawn := drawn w |}).
Proof.
  unfold Part000.insert_and_redirect, try_catch, bind, insert_link, taken.
  unfold violation.
  destruct (existsb (has_code c) (links w)); reflexivity.
Qed.

End Shorten.

Section ShortenRuns.

Variable E : Env.

Lemma bind_run {A B} (m : M A) (k : A -> M B) w :
  bind m k w = match m w with
               | (Returned a, w') => k a w'
               | (Thrown e, w') => (Thrown e, w')
               end.
Proof. reflexivity. Qed.

Lemma nth_draw_length w i : List.length (nth_draw E w i) = 6.
Proof. reflexivity. Qed.

Lemma nth_draw_truthy w i : truthy (nth_draw E w i) = true.
Proof.
  pose proof (nth_draw_length w i) as H.
  destruct (nth_draw E w i); [discriminate|reflexivity].
Qed.

Lemma nth_draw_at t d k i :
  nth_draw E {| links := t; drawn := d + 6 * k |} i
  = nth_draw E {| links := t; drawn := d |} (k + i).
Proof.
  unfold nth_draw, Part000.nano, customAlphabet. cbn [fst links drawn].
  replace (d + 6 * k + 6 * i) with (d + 6 * (k + i)) by lia. reflexivity.
Qed.

Lemma rowCount_select_pos c (t : Table) :
  (0 <? rowCount (map (fun _ : Link => 1%N) (filter (has_code c) t)))%N
  = existsb (has_code c) t.
Proof.
  induction t as [|x t IH]; simpl; auto.
  destruct (has_code c x); simpl; auto.
Qed.

(** The custom branch, run: pattern, then look-up, then insert. *)
Lemma custom_branch_run now c url w :
  Part000.custom_branch now c url w
  = if negb (test Part000.re_code c)
    then (Returned (Render (live_rows w)
            (Some (js "Custom code must be 3-8 alphanumeric characters"))), w)
    else if taken c w
    then (Returned (Render (live_rows w)
            (Some (js "Custom code already exists"))), w)
    else (Returned (Redirect (js "/")),
          {| links := links w ++ [new_row now c url]; drawn := drawn w |}).
Proof.
  unfold Part000.custom_branch.
  destruct (negb (test Part000.re_code c)); [reflexivity|].
  rewrite bind_run. unfold try_catch. rewrite bind_run.
  unfold select_code at 1. cbv beta iota. rewrite rowCount_select_pos.
  fold (taken c w). destruct (taken c w) eqn:Ht.
  - reflexivity.
  - unfold ret at 1. cbv beta iota.
    rewrite insert_and_redirect_run, Ht. reflexivity.
Qed.

(** The generated branch when the draw number [i] is the first free one. *)
Lemma generated_branch_free now url w i :
  i < 10 ->
  (forall j, j < i -> taken (nth_draw E w j) w = true) ->
  taken (nth_draw E w i) w = false ->
  Part000.generated_branch E now url w
  = (Returned (Redirect (js "/")),
     {| links := links w ++ [new_row now (nth_draw E w i) url];
        drawn := drawn w + 6 * S i |}).
Proof.
  intros Hi Hbefore Hfree. unfold Part000.generated_branch.
  rewrite bind_run, (draw_code_free E 10 w i Hi Hbefore Hfree).
  cbv beta iota. unfold falsy. rewrite nth_draw_truthy. cbn [negb].
  rewrite bind_run. unfold ret at 1. cbv beta iota.
  rewrite insert_and_redirect_run. unfold taken in *. cbn [links drawn].
  rewrite Hfree. reflexivity.
Qed.

(** The generated branch when the ten draws all have a row. *)
Lemma generated_branch_fallback now url w :
  (forall j, j < 10 -> taken (nth_draw E w j) w = true) ->
  Part000.generated_branch E now url w
  = if taken (fallback_code E w) w
    then (Returned (Render (live_rows w) (Some Part000.msg_collided)),
          {| links := links w; drawn := drawn w + 67 |})
    else (Returned (Redirect (js "/")),
          {| links := links w ++ [new_row now (fallback_code E w) url];
             drawn := drawn w + 67 |}).
Proof.
  intros Hall. unfold Part000.generated_branch.
  rewrite bind_run, (draw_code_exhausted E 10 w Hall).
  cbv beta iota. cbn [falsy].
  rewrite bind_run, bind_run, nano_run. cbv beta iota.
  rewrite bind_run. unfold random_below at 1. cbv beta iota.
  unfold ret at 1. cbv beta iota. cbn [links drawn].
  rewrite insert_and_redirect_run. unfold taken. cbn [links drawn].
  rewrite (nth_draw_at (links w) (drawn w) 10 0), world_eta.
  replace (drawn w + 6 * 10 + 6) with (drawn w + 66) by lia.
  replace (S (drawn w + 66)) with (drawn w + 67) by lia.
  unfold live_rows, fallback_code. cbn [links Nat.add].
  destruct (existsb _ (links w)); reflexivity.
Qed.

End ShortenRuns.

Section ShortenCases.

Variable E : Env.

Lemma trimmed_or_null_some C c :
  trimmed_or_null C = Some c ->
  truthy c = true /\ exists cc, C = Some cc /\ c = trim cc.
Proof.
  unfold trimmed_or_null. destruct C as [cc|]; [|discriminate].
  destruct (truthy cc); simpl; [|discriminate].
  destruct (truthy (trim cc)) eqn:Ht; [|discriminate].
  intros H; inversion H; subst. split; [exact Ht|]. exists cc; auto.
Qed.

Lemma post_shorten_cases now FullUrl customCode w :
  exists r w',
    Part000.post_shorten E now FullUrl customCode w = (Returned r, w')
    /\ ShortenResult E now FullUrl customCode w r w'.
Proof.
  unfold Part000.post_shorten.
  destruct (falsy FullUrl) eqn:HF.
  { do 2 eexists; split; [apply render_error_run|]. constructor; auto. }
  destruct FullUrl as [raw|]; [|discriminate].
  cbn [falsy] in HF. apply negb_false_iff in HF. cbv zeta.
  destruct (Part000.isValidUrlResolved E (Part000.normalize raw)) eqn:Hok;
    cbn [negb].
  2:{ do 2 eexists; split; [apply render_error_run|]. constructor; auto. }
  assert (Hgen : exists r w',
             Part000.generated_branch E now (Part000.normalize raw) w
             = (Returned r, w')
             /\ (trimmed_or_null customCode = None ->
                 ShortenResult E now (Some raw) customCode w r w')).
  { destruct (first_free E 10 w) as [(i & Hi & Hb & Hf)|Hall].
    - rewrite (generated_branch_free E now _ w i Hi Hb Hf).
      do 2 eexists; split; [reflexivity|]. intros Hnone.
      eapply Created with (raw := raw) (c := nth_draw E w i);
        [reflexivity | exact HF | exact Hok | apply FromDraw; auto | exact Hf
        | reflexivity | cbn [drawn]; lia].
    - rewrite (generated_branch_fallback E now _ w Hall).
      destruct (taken (fallback_code E w) w) eqn:Ht.
      + do 2 eexists; split; [reflexivity|]. intros _.
        constructor; cbn [links drawn]; auto; lia.
      + do 2 eexists; split; [reflexivity|]. intros Hnone.
        eapply Created with (raw := raw) (c := fallback_code E w);
          [reflexivity | exact HF | exact Hok | apply FromFallback; auto
          | exact Ht
          | reflexivity | cbn [drawn]; lia]. }
  destruct (trimmed_or_null customCode) as [c|] eqn:HC.
  - destruct (trimmed_or_null_some _ _ HC) as [Hc _]. rewrite Hc.
    rewrite custom_branch_run.
    destruct (test Part000.re_code c) eqn:Hre; cbn [negb].
    + destruct (taken c w) eqn:Ht.
      * do 2 eexists; split; [reflexivity|]. constructor; auto.
      * do 2 eexists; split; [reflexivity|].
        eapply Created with (raw := raw) (c := c);
          [reflexivity | exact HF | exact Hok | apply FromCustom; auto
          | exact Ht
          | reflexivity | cbn [drawn]; lia].
    + do 2 eexists; split; [reflexivity|]. constructor; auto.
  - destruct Hgen as (r & w' & Hrun & Hres).
    exists r, w'. split; auto.
Qed.

(** The ways a request is refused, run. *)
Lemma post_shorten_invalid now raw customCode w :
  truthy raw = true ->
  Part000.isValidUrlResolved E (Part000.normalize raw) = false ->
  Part000.post_shorten E now (Some raw) customCode w
  = (Returned (Render (live_rows w)
       (Some (js "Invalid or non-resolving URL. Please enter a valid domain (e.g. example.com)."))),
     w).
Proof.
  intros Hraw Hbad. unfold Part000.post_shorten. cbn [falsy].
  rewrite Hraw. cbn [negb]. cbv zeta. rewrite Hbad. reflexivity.
Qed.

Lemma post_shorten_custom now raw customCode c w :
  truthy raw = true ->
  Part000.isValidUrlResolved E (Part000.normalize raw) = true ->
  trimmed_or_null customCode = Some c ->
  Part000.post_shorten E now (Some raw) customCode w
  = Part000.custom_branch now c (Part000.normalize raw) w.
Proof.
  intros Hraw Hok HC. unfold Part000.post_shorten. cbn [falsy].
  rewrite Hraw. cbn [negb]. cbv zeta. rewrite Hok, HC. cbn [negb].
  destruct (trimmed_or_null_some _ _ HC) as [-> _]. reflexivity.
Qed.

Lemma post_shorten_generated now raw customCode w :
  truthy raw = true ->
  Part000.isValidUrlResolved E (Part000.normalize raw) = true ->
  trimmed_or_null customCode = None ->
  Part000.post_shorten E now (Some raw) customCode w
  = Part000.generated_branch E now (Part000.normalize raw) w.
Proof.
  intros Hraw Hok HC. unfold Part000.post_shorten. cbn [falsy].
  rewrite Hraw. cbn [negb]. cbv zeta. rewrite Hok, HC. reflexivity.
Qed.

End ShortenCases.

(* ================================================================== *)
(** * Runs of requests: uniqueness and the click counter *)
(* ================================================================== *)

Section Runs.

Variable E : Env.

Lemma taken_false c w : taken c w = false <-> ~ In c (map code (links w)).
Proof. apply existsb_has_code. Qed.

(** Every handler returns; none leaves its promise rejected. *)
Lemma handle_returns r w :
  exists resp w', handle E r w = (Returned resp, w').
Proof.
  destruct r as [now F C|now c|c|]; cbn [handle].
  - destruct (post_shorten_cases E now F C w) as (resp & w' & H & _).
    eauto.
  - rewrite get_code_run; eauto.
  - rewrite post_delete_run; eauto.
  - do 2 eexists; reflexivity.
Qed.

(** The uniqueness constraint holds after every request. *)
Lemma handle_unique r w :
  unique_codes w -> unique_codes (snd (handle E r w)).
Proof.
  unfold unique_codes. intros Hu.
  destruct r as [now F C|now c|c|]; cbn [handle].
  - destruct (post_shorten_cases E now F C w) as (resp & w' & Hrun & Hres).
    rewrite Hrun. cbn [snd].
    destruct Hres as [msg w' Hl _|raw c w' _ _ _ _ Ht Hl _]; rewrite Hl; auto.
    rewrite map_app. apply NoDup_app; auto.
    + simpl. constructor; [tauto|constructor].
    + intros a Ha [<-|[]]. apply taken_false in Ht. exact (Ht Ha).
  - rewrite get_code_run. cbn [snd links].
    rewrite map_code_map; auto. intros; apply click_code.
  - rewrite post_delete_run. cbn [snd links].
    rewrite map_code_map; auto. intros; apply mark_code.
  - exact Hu.
Qed.

Lemma serve_unique rs : forall w,
  unique_codes w -> unique_codes (snd (serve E rs w)).
Proof.
  induction rs as [|r rs IH]; intros w Hu; cbn [serve]; auto.
  pose proof (handle_unique r w Hu) as H1.
  destruct (handle E r w) as [o w1]. cbn [snd] in H1.
  specialize (IH w1 H1).
  destruct (serve E rs w1) as [log w2]. exact IH.
Qed.

(** One request moves the counter of [c] by one if it is a visit of [c]
    answered by a redirect, and not at all otherwise. *)
Lemma handle_clicks r w c l :
  unique_codes w ->
  lookup c (links w) = Some l ->
  exists l',
    lookup c (links (snd (handle E r w))) = Some l'
    /\ total_clicks l' = (total_clicks l + hits c [(r, fst (handle E r w))])%N
    /\ deleted l' = deleted l || match r with
                                 | PostDelete c' => JS.eqb c' c
                                 | _ => false
                                 end.
Proof.
  intros Hu Hl.
  destruct (lookup_In _ _ _ Hl) as [Hin Hc]. subst c.
  destruct r as [now F C|now c'|c'|]; cbn [handle].
  - destruct (post_shorten_cases E now F C w) as (resp & w' & Hrun & Hres).
    rewrite Hrun. cbn [fst snd]. exists l.
    assert (Hhits : hits (code l) [(PostShorten now F C, Returned resp)]
                    = 0%N) by reflexivity.
    rewrite Hhits, N.add_0_r, orb_false_r. repeat split.
    destruct Hres as [msg w' Hlk _|raw c0 w' _ _ _ _ _ Hlk _]; rewrite Hlk;
      auto using lookup_app.
  - rewrite get_code_run. cbn [fst snd links].
    rewrite lookup_map by (intros; apply click_code). rewrite Hl.
    cbn [option_map]. eexists; split; [reflexivity|].
    destruct (JS.eqb c' (code l)) eqn:Hcc.
    + apply eqb_eq in Hcc. subst c'.
      destruct (deleted l) eqn:Hd.
      * assert (Hnl : is_live (code l) l = false).
        { unfold is_live. rewrite Hd, andb_false_r. reflexivity. }
        rewrite Hnl, filter_none.
        -- unfold hits; cbn. rewrite N.add_0_r, Hd. auto.
        -- intros x Hx. destruct (is_live (code l) x) eqn:Hlx; auto.
           apply is_live_true in Hlx. destruct Hlx as [Hxc Hxd].
           pose proof (lookup_unique (links w) x Hu Hx) as H1.
           rewrite Hxc, Hl in H1. inversion H1; subst x. congruence.
      * rewrite (filter_live_unique (links w) l Hu Hin Hd).
        rewrite (proj2 (is_live_true (code l) l) (conj eq_refl Hd)).
        unfold hits. cbn [filter is_hit]. rewrite eqb_refl.
        cbn. rewrite Hd. auto.
    + assert (Hnl : is_live c' l = false).
      { unfold is_live. rewrite (proj2 (has_code_false c' l)); auto.
        intros Heq. rewrite Heq, eqb_refl in Hcc; discriminate. }
      rewrite Hnl. unfold hits. cbn [filter is_hit].
      destruct (filter (is_live c') (links w)); rewrite ?Hcc; cbn;
        rewrite N.add_0_r, orb_false_r; auto.
  - rewrite post_delete_run. cbn [fst snd links].
    rewrite lookup_map by (intros; apply mark_code). rewrite Hl.
    cbn [option_map]. eexists; split; [reflexivity|].
    unfold hits; cbn. rewrite N.add_0_r.
    unfold has_code. rewrite (eqb_sym (code l) c').
    destruct (JS.eqb c' (code l)); cbn; rewrite ?orb_true_r, ?orb_false_r;
      auto.
  - exists l. cbn. rewrite N.add_0_r, orb_false_r. auto.
Qed.

Lemma hits_cons c entry log :
  hits c (entry :: log) = (hits c [entry] + hits c log)%N.
Proof.
  unfold hits. cbn [filter]. destruct (is_hit c entry); cbn [List.length];
    lia.
Qed.

(** Over a run the counter of [c] grows by the number of its visits that
    were answered by a redirect. *)
Lemma serve_clicks rs : forall w c l,
  unique_codes w ->
  lookup c (links w) = Some l ->
  exists l',
    lookup c (links (snd (serve E rs w))) = Some l'
    /\ total_clicks l'
       = (total_clicks l + hits c (fst (serve E rs w)))%N.
Proof.
  induction rs as [|r rs IH]; intros w c l Hu Hl; cbn [serve].
  - exists l. cbn. rewrite N.add_0_r. auto.
  - destruct (handle_clicks r w c l Hu Hl) as (l1 & Hl1 & Hc1 & _).
    pose proof (handle_unique r w Hu) as Hu1.
    destruct (handle E r w) as [o w1]. cbn [fst snd] in *.
    destruct (IH w1 c l1 Hu1 Hl1) as (l2 & Hl2 & Hc2).
    destruct (serve E rs w1) as [log w2]. cbn [fst snd] in *.
    exists l2. split; auto.
    rewrite hits_cons, Hc2, Hc1. lia.
Qed.

(** Visits of a live code are all answered by a redirect. *)
Lemma visits_all_hit nows : forall w c l,
  unique_codes w ->
  lookup c (links w) = Some l ->
  deleted l = false ->
  hits c (fst (serve E (visits c nows) w)) = N.of_nat (List.length nows)
  /\ Forall (fun entry => exists t, snd entry = Returned (Redirect t))
            (fst (serve E (visits c nows) w)).
Proof.
  induction nows as [|now nows IH]; intros w c l Hu Hl Hd;
    cbn [visits map serve].
  - split; [reflexivity|constructor].
  - pose proof (handle_clicks (GetCode now c) w c l Hu Hl)
      as (l1 & Hl1 & _ & Hd1).
    pose proof (handle_unique (GetCode now c) w Hu) as Hu1.
    rewrite Hd, orb_false_r in Hd1.
    assert (Hresp : fst (handle E (GetCode now c) w)
                    = Returned (Redirect (target_url l))).
    { cbn [handle]. rewrite get_code_run. cbn [fst].
      destruct (lookup_In _ _ _ Hl) as [Hin Hc]. rewrite <- Hc.
      rewrite (filter_live_unique (links w) l Hu Hin Hd). reflexivity. }
    destruct (handle E (GetCode now c) w) as [o w1]. cbn [fst snd] in *.
    destruct (IH w1 c l1 Hu1 Hl1 Hd1) as [Hh Hall].
    fold (visits c nows).
    destruct (serve E (visits c nows) w1) as [log w2]. cbn [fst snd] in *.
    split.
    + rewrite hits_cons, Hh. subst o. unfold hits; cbn [filter is_hit].
      rewrite eqb_refl. cbn [List.length]. lia.
    + constructor; auto. cbn [snd]. eauto.
Qed.

End Runs.

(** C2. On a table with unique codes, for a code [c] that has a row:
    after [n] visits of [c] in a row while the row is live, every visit is
    answered by a redirect and [total_clicks] is its old value plus [n];
    after any run of requests [total_clicks] is its old value plus the number
    of visits of [c] in the run that were answered by a redirect, so it never
    decreases; and a single request leaves it as it was unless the request
    is a visit of [c] answered by a redirect, which adds one. *)
Theorem C2_clicks_count_redirects (E : Env) (c : jsstring) (l : Link)
    (w : World) :
  unique_codes w ->
  lookup c (links w) = Some l ->
  (deleted l = false ->
   forall nows, exists l',
     lookup c (links (snd (serve E (visits c nows) w))) = Some l'
     /\ total_clicks l' = (total_clicks l + N.of_nat (List.length nows))%N
     /\ Forall (fun entry => exists t, snd entry = Returned (Redirect t))
               (fst (serve E (visits c nows) w)))
  /\ (forall rs, exists l',
        lookup c (links (snd (serve E rs w))) = Some l'
        /\ total_clicks l'
           = (total_clicks l + hits c (fst (serve E rs w)))%N
        /\ (total_clicks l <= total_clicks l')%N)
  /\ (forall r, exists l',
        lookup c (links (snd (handle E r w))) = Some l'
        /\ (total_clicks l' = total_clicks l
            \/ total_clicks l' = (total_clicks l + 1)%N
               /\ exists now t, r = GetCode now c
                                /\ fst (handle E r w)
                                   = Returned (Redirect t))).
Proof.
  intros Hu Hl. repeat split.
  - intros Hd nows.
    destruct (serve_clicks E (visits c nows) w c l Hu Hl) as (l' & Hl' & Hc).
    destruct (visits_all_hit E nows w c l Hu Hl Hd) as [Hh Hall].
    exists l'. rewrite Hc, Hh. auto.
  - intros rs.
    destruct (serve_clicks E rs w c l Hu Hl) as (l' & Hl' & Hc).
    exists l'. repeat split; auto. lia.
  - intros r.
    destruct (handle_clicks E r w c l Hu Hl) as (l' & Hl' & Hc & _).
    exists l'. split; auto.
    unfold hits in Hc. cbn [filter] in Hc.
    destruct (is_hit c (r, fst (handle E r w))) eqn:Hhit; cbn in Hc.
    + right. split; [lia|].
      unfold is_hit in Hhit.
      destruct r as [| now c' | |]; try discriminate.
      destruct (fst (handle E (GetCode now c') w)) as [[t| |]|];
        try discriminate.
      apply eqb_eq in Hhit. subst c'. eauto.
    + left. lia.
Qed.

(** Three visits of a live code that had five clicks. *)
Lemma C2_witness :
  unique_codes (Sample.world [Sample.row "abc" "https://example.com/" 5 false])
  /\ lookup (js "abc")
       (links (Sample.world [Sample.row "abc" "https://example.com/" 5 false]))
     = Some (Sample.row "abc" "https://example.com/" 5 false)
  /\ exists l',
       lookup (js "abc")
         (links (snd (serve (Sample.env []) (visits (js "abc") [1; 2; 3]%N)
                        (Sample.world
                           [Sample.row "abc" "https://example.com/" 5 false]))))
       = Some l'
       /\ total_clicks l' = 8%N.
Proof.
  assert (Hu : unique_codes
                 (Sample.world
                    [Sample.row "abc" "https://example.com/" 5 false])).
  { unfold unique_codes; simpl. repeat constructor; simpl; tauto. }
  split; [exact Hu|]. split; [reflexivity|].
  destruct (C2_clicks_count_redirects (Sample.env []) (js "abc")
              (Sample.row "abc" "https://example.com/" 5 false) _ Hu eq_refl)
    as (Hvisits & _).
  destruct (Hvisits eq_refl [1; 2; 3]%N) as (l' & Hl' & Hc & _).
  exists l'. split; [exact Hl'|exact Hc].
Defined.

(* ================================================================== *)
(** * More facts about strings: prefixes, pieces, trimming *)
(* ================================================================== *)

Section PrefixFacts.

Lemma startsWith_iff (p : jsstring) : forall s,
  startsWith s p = true <-> exists rest, s = p ++ rest.
Proof.
  induction p as [|c p IH]; intros s; simpl.
  - split; [intros _; exists s; reflexivity | reflexivity].
  - destruct s as [|d s].
    + split; [discriminate | intros [r Hr]; discriminate].
    + rewrite andb_true_iff, N.eqb_eq, IH. split.
      * intros [-> [r ->]]. exists r; reflexivity.
      * intros [r Hr]. inversion Hr; subst. split; eauto.
Qed.

Lemma endsWith_iff (s p : jsstring) :
  endsWith s p = true <-> exists front, s = front ++ p.
Proof.
  unfold endsWith. rewrite startsWith_iff. split.
  - intros [r Hr]. exists (rev r).
    rewrite <- (rev_involutive s), Hr, rev_app_distr, rev_involutive.
    reflexivity.
  - intros [f ->]. exists (rev f). apply rev_app_distr.
Qed.

Lemma includes_unit (c : N) (s : jsstring) :
  includes s [c] = true <-> In c s.
Proof.
  induction s as [|d s IH]; simpl.
  - split; [discriminate | tauto].
  - rewrite orb_true_iff, andb_true_r, N.eqb_eq, IH. tauto.
Qed.

(** The class [[a-zA-Z0-9.-]]. *)
Lemma in_class_host (c : N) :
  in_class [(97, 122); (65, 90); (48, 57); (46, 46); (45, 45)]%N c = true
  <-> (ascii_letter c || ascii_digit c = true \/ c = hyphen \/ c = dot).
Proof.
  unfold in_class, ascii_letter, ascii_digit, hyphen, dot. simpl.
  rewrite !orb_true_iff, !andb_true_iff, !N.leb_le. lia.
Qed.

(** [split] cuts at every separator, and only there. *)
Lemma split_nonempty (s : jsstring) sep : split s sep <> [].
Proof.
  destruct s as [|c s]; simpl; [discriminate|].
  destruct (c =? sep)%N; [discriminate|].
  destruct (split s sep); discriminate.
Qed.

Lemma join_split (s : jsstring) sep : join (split s sep) sep = s.
Proof.
  induction s as [|c s IH]; simpl; auto.
  destruct (c =? sep)%N eqn:Hc.
  - apply N.eqb_eq in Hc. subst c.
    pose proof (split_nonempty s sep).
    cbn [join]. destruct (split s sep) as [|p ps]; [tauto|].
    rewrite IH. reflexivity.
  - pose proof (split_nonempty s sep).
    destruct (split s sep) as [|p ps]; [tauto|].
    cbn [join] in *. destruct ps; simpl; rewrite <- IH; reflexivity.
Qed.

Lemma split_pieces_clean (s : jsstring) sep :
  Forall (fun piece => ~ In sep piece) (split s sep).
Proof.
  induction s as [|c s IH]; simpl.
  - repeat constructor; auto.
  - destruct (c =? sep)%N eqn:Hc.
    + constructor; auto.
    + apply N.eqb_neq in Hc.
      destruct (split s sep) as [|p ps]; [repeat constructor; simpl; tauto|].
      inversion IH; subst. constructor; auto.
      simpl. intros [->|]; tauto.
Qed.

(** [trim] removes white space at both ends and nothing else. *)
Lemma trimStart_spec (s : jsstring) :
  exists front,
    s = front ++ trimStart s
    /\ forallb isWhiteSpace front = true
    /\ match trimStart s with
       | [] => True
       | c :: _ => isWhiteSpace c = false
       end.
Proof.
  induction s as [|c s (front & Hs & Hw & Hh)]; simpl.
  - exists []; auto.
  - destruct (isWhiteSpace c) eqn:Hc.
    + exists (c :: front); simpl. rewrite Hc, Hw, <- Hs. auto.
    + exists []; simpl. auto.
Qed.

Lemma trim_spec (s : jsstring) :
  exists front back,
    s = front ++ trim s ++ back
    /\ forallb isWhiteSpace front = true
    /\ forallb isWhiteSpace back = true
    /\ (forall c r, trim s = c :: r -> isWhiteSpace c = false)
    /\ (forall c r, trim s = r ++ [c] -> isWhiteSpace c = false).
Proof.
  destruct (trimStart_spec s) as (front & Hs & Hf & Hhead).
  destruct (trimStart_spec (rev (trimStart s))) as (kcab & Hr & Hb & Hlast).
  exists front, (rev kcab). unfold trim, trimEnd.
  set (m := trimStart (rev (trimStart s))) in *.
  assert (Hmid : trimStart s = rev m ++ rev kcab).
  { rewrite <- rev_app_distr, <- Hr, rev_involutive. reflexivity. }
  repeat split.
  - rewrite <- Hmid. exact Hs.
  - exact Hf.
  - rewrite forallb_forall in *. intros c Hc. apply Hb.
    apply in_rev. exact Hc.
  - intros c r Hm.
    destruct m as [|d m'].
    + discriminate.
    + rewrite Hmid in Hhead. rewrite Hm in Hhead. exact Hhead.
  - intros c r Hm.
    assert (Hm' : m = c :: rev r).
    { rewrite <- (rev_involutive m), Hm, rev_app_distr. reflexivity. }
    rewrite Hm' in Hlast. exact Hlast.
Qed.

(** A trimmed string is stable under [trim]. *)
Lemma trimStart_idem (s : jsstring) : trimStart (trimStart s) = trimStart s.
Proof.
  induction s as [|c s IH]; simpl; auto.
  destruct (isWhiteSpace c) eqn:Hc; auto. simpl. rewrite Hc. reflexivity.
Qed.

End PrefixFacts.

(* ================================================================== *)
(** * Validation of the target *)
(* ================================================================== *)

Section Validation.

Variable E : Env.

Lemma labels_pass_iff (labels : list jsstring) :
  Part000.labels_pass labels = true <-> Forall label_ok labels.
Proof.
  induction labels as [|lab rest IH]; cbn [Part000.labels_pass].
  - split; [constructor | reflexivity].
  - change (js "-") with [hyphen].
    destruct lab as [|c lab'].
    { cbn [truthy negb]. split; [discriminate|].
      intros H; inversion H; subst.
      destruct H2 as [Hne _]. congruence. }
    cbn [truthy negb].
    destruct (startsWith (c :: lab') [hyphen]) eqn:Hs.
    { cbn [orb]. split; [discriminate|]. intros H; inversion H; subst.
      apply startsWith_iff in Hs. destruct Hs as [r Hr].
      destruct H2 as (_ & Hno & _). exfalso. exact (Hno r Hr). }
    destruct (endsWith (c :: lab') [hyphen]) eqn:He.
    { cbn [orb]. split; [discriminate|]. intros H; inversion H; subst.
      apply endsWith_iff in He. destruct He as [p Hp].
      destruct H2 as (_ & _ & Hno). exfalso. exact (Hno p Hp). }
    cbn [orb]. rewrite IH. split.
    + intros H. constructor; auto. repeat split.
      * discriminate.
      * intros r Hr.
        assert (startsWith (c :: lab') [hyphen] = true)
          by (apply startsWith_iff; exists r; exact Hr).
        congruence.
      * intros p Hp.
        assert (endsWith (c :: lab') [hyphen] = true)
          by (apply endsWith_iff; exists p; exact Hp).
        congruence.
    + intros H; inversion H; auto.
Qed.

Lemma re_hostname_iff (h : jsstring) :
  test Part000.re_hostname h = true
  <-> h <> []
      /\ forall c, In c h ->
           ascii_letter c || ascii_digit c = true \/ c = hyphen \/ c = dot.
Proof.
  unfold Part000.re_hostname. rewrite test_anchored, forallb_forall.
  simpl within. split.
  - intros (Hc & Hlen & _). split.
    + destruct h; [simpl in Hlen; lia | discriminate].
    + intros c Hin. apply in_class_host. auto.
  - intros [Hne Hc]. repeat split; auto.
    + intros c Hin. apply in_class_host. auto.
    + destruct h; [congruence | simpl; lia].
Qed.

(** The checks of [isValidUrlResolved] on the host name are the conditions
    of the specification. *)
Lemma hostname_checks_iff (h : jsstring) :
  (negb (truthy h) || negb (includes h (js ".")) = false
   /\ endsWith h (js ".") = false
   /\ test Part000.re_hostname h = true
   /\ Part000.labels_pass (split h 46) = true)
  <-> hostname_ok h.
Proof.
  change (js ".") with [dot]. change 46%N with dot.
  rewrite orb_false_iff, !negb_false_iff.
  rewrite includes_unit, re_hostname_iff, labels_pass_iff, Forall_forall.
  split.
  - intros ((Ht & Hdot) & Hend & (Hne & Hch) & Hlab).
    constructor; auto.
    + intros p Hp.
      assert (endsWith h [dot] = true)
        by (apply endsWith_iff; exists p; exact Hp).
      congruence.
  - intros [Hne Hdot Hend Hch Hlab]. repeat split; auto.
    + destruct h; [congruence | reflexivity].
    + destruct (endsWith h [dot]) eqn:He; auto.
      apply endsWith_iff in He. destruct He as [p Hp].
      exfalso. exact (Hend p Hp).
    + apply (Hlab x H).
    + apply (Hlab x H).
    + apply (Hlab x H).
Qed.

Lemma array_includes_protocol (p : jsstring) :
  array_includes [js "http:"; js "https:"] p = true
  <-> p = js "http:" \/ p = js "https:".
Proof.
  unfold array_includes. cbn [existsb].
  rewrite !orb_true_iff, !eqb_eq. intuition discriminate.
Qed.

(** [isValidUrlResolved] accepts exactly the strings that parse to an http
    or https URL whose host name meets the conditions and resolves. *)
Lemma isValidUrlResolved_iff (urlString : jsstring) :
  Part000.isValidUrlResolved E urlString = true
  <-> exists u,
        URL_new E urlString = Some u
        /\ (protocol u = js "http:" \/ protocol u = js "https:")
        /\ hostname_ok (hostname u)
        /\ dnsLookup E (hostname u) = true.
Proof.
  unfold Part000.isValidUrlResolved.
  destruct (URL_new E urlString) as [u|].
  2:{ split; [discriminate | intros (u & Hu & _); discriminate]. }
  cbv zeta.
  pose proof (array_includes_protocol (protocol u)) as Hp.
  pose proof (hostname_checks_iff (hostname u)) as Hh.
  destruct (array_includes [js "http:"; js "https:"] (protocol u));
    cbn [negb].
  2:{ split; [discriminate|]. intros (u' & Hu & Hp' & _).
      inversion Hu; subst u'. apply Hp in Hp'. discriminate. }
  destruct (negb (truthy (hostname u))
            || negb (includes (hostname u) (js "."))).
  { split; [discriminate|]. intros (u' & Hu & _ & Hok & _).
    inversion Hu; subst u'. apply Hh in Hok. destruct Hok; discriminate. }
  destruct (endsWith (hostname u) (js ".")).
  { split; [discriminate|]. intros (u' & Hu & _ & Hok & _).
    inversion Hu; subst u'. apply Hh in Hok.
    destruct Hok as (_ & ? & _); discriminate. }
  destruct (test Part000.re_hostname (hostname u)); cbn [negb].
  2:{ split; [discriminate|]. intros (u' & Hu & _ & Hok & _).
      inversion Hu; subst u'. apply Hh in Hok.
      destruct Hok as (_ & _ & ? & _); discriminate. }
  destruct (Part000.labels_pass (split (hostname u) 46)); cbn [negb].
  2:{ split; [discriminate|]. intros (u' & Hu & _ & Hok & _).
      inversion Hu; subst u'. apply Hh in Hok.
      destruct Hok as (_ & _ & _ & ?); discriminate. }
  split.
  - intros Hdns. exists u.
    split; [reflexivity|]. split; [apply Hp; reflexivity|].
    split; [apply Hh; auto | exact Hdns].
  - intros (u' & Hu & _ & _ & Hdns). inversion Hu; subst u'. exact Hdns.
Qed.

Lemma hostname_bad_not_ok (h : jsstring) : hostname_bad h -> ~ hostname_ok h.
Proof.
  intros Hbad [Hne Hdot Hend Hch Hlab].
  destruct Hbad as [H|[H|[[p H]|[(c & Hin & Hc & Hh & Hd)|(lab & Hl & H)]]]].
  - congruence.
  - tauto.
  - exact (Hend p H).
  - destruct (Hch c Hin) as [H|[H|H]]; congruence.
  - destruct (Hlab lab Hl) as (H1 & H2 & H3).
    destruct H as [H|[[r H]|[p H]]].
    + congruence.
    + exact (H2 r H).
    + exact (H3 p H).
Qed.

End Validation.

(** C8. [isValidUrlResolved] accepts a string only if it parses to a URL
    whose host name is not empty, contains a dot, does not end in a dot, is
    made of letters, digits, hyphens and dots only, and has no label that is
    empty or starts or ends with a hyphen; whenever the host name of the
    parsed URL breaks one of these conditions the validation fails, and
    [app.post("/shorten")] answers the invalid-URL page without touching the
    table. *)
Theorem C8_hostname_conditions (E : Env) (urlString : jsstring) :
  (Part000.isValidUrlResolved E urlString = true ->
   exists u, URL_new E urlString = Some u /\ hostname_ok (hostname u))
  /\ (forall u,
        URL_new E urlString = Some u ->
        hostname_bad (hostname u) ->
        Part000.isValidUrlResolved E urlString = false)
  /\ (forall now raw customCode w u,
        truthy raw = true ->
        urlString = Part000.normalize raw ->
        URL_new E urlString = Some u ->
        hostname_bad (hostname u) ->
        Part000.post_shorten E now (Some raw) customCode w
        = (Returned (Render (live_rows w) (Some msg_invalid)), w)).
Proof.
  assert (Hbad : forall u,
             URL_new E urlString = Some u ->
             hostname_bad (hostname u) ->
             Part000.isValidUrlResolved E urlString = false).
  { intros u Hu Hb.
    destruct (Part000.isValidUrlResolved E urlString) eqn:Hv; auto.
    apply isValidUrlResolved_iff in Hv.
    destruct Hv as (u' & Hu' & _ & Hok & _).
    rewrite Hu in Hu'. inversion Hu'; subst u'.
    exfalso. exact (hostname_bad_not_ok _ Hb Hok). }
  split; [|split].
  - intros Hv. apply isValidUrlResolved_iff in Hv.
    destruct Hv as (u & Hu & _ & Hok & _). eauto.
  - exact Hbad.
  - intros now raw customCode w u Hraw -> Hu Hb.
    apply post_shorten_invalid; auto. exact (Hbad u Hu Hb).
Qed.

(** A host name without a dot: "localhost" is refused. *)
Lemma C8_witness :
  Part000.post_shorten (Sample.env []) 5 (Some (js "localhost")) None
    (Sample.world [])
  = (Returned (Render [] (Some msg_invalid)), Sample.world []).
Proof.
  destruct (C8_hostname_conditions (Sample.env [])
              (Part000.normalize (js "localhost"))) as (_ & _ & H).
  apply (H 5%N (js "localhost") None (Sample.world [])
           {| protocol := js "https:"; hostname := js "localhost";
              href := js "https://localhost/" |}).
  - reflexivity.
  - reflexivity.
  - reflexivity.
  - right; left. vm_compute. intuition discriminate.
Defined.

(** The string that is validated: the trimmed input, behind ["https://"]
    unless it starts with ["http://"] or ["https://"]. *)
Lemma normalize_prefix (raw : jsstring) :
  (has_scheme_prefix (trim raw) -> Part000.normalize raw = trim raw)
  /\ (~ has_scheme_prefix (trim raw) ->
      Part000.normalize raw = js "https://" ++ trim raw).
Proof.
  assert (Hpre : startsWith (trim raw) (js "http://") = true
                 \/ startsWith (trim raw) (js "https://") = true
                 <-> has_scheme_prefix (trim raw)).
  { unfold has_scheme_prefix. rewrite !startsWith_iff.
    split.
    - intros [[r Hr]|[r Hr]]; exists r; auto.
    - intros [r [Hr|Hr]]; [left|right]; exists r; auto. }
  split.
  - intros Hp. apply Hpre in Hp. unfold Part000.normalize. cbv zeta.
    destruct Hp as [-> | ->]; cbn [negb andb]; auto.
    rewrite andb_false_r. reflexivity.
  - intros Hp. unfold Part000.normalize. cbv zeta.
    destruct (startsWith (trim raw) (js "http://")) eqn:H1.
    { exfalso. apply Hp, Hpre. auto. }
    destruct (startsWith (trim raw) (js "https://")) eqn:H2.
    { exfalso. apply Hp, Hpre. auto. }
    reflexivity.
Qed.

(** C9. [app.post("/shorten")] validates the trimmed input, with
    ["https://"] put in front when the trimmed input starts with neither
    ["http://"] nor ["https://"]; when the validation of that string fails
    the invalid-URL page is answered and the table is untouched; in
    particular this happens when the URL parsed from it has a protocol other
    than [http:] and [https:], and a row is only ever added when that
    protocol is one of the two. *)
Theorem C9_trim_prefix_then_validate (E : Env) (now : N)
    (raw : jsstring) (customCode : option jsstring) (w : World) :
  truthy raw = true ->
  (has_scheme_prefix (trim raw) -> Part000.normalize raw = trim raw)
  /\ (~ has_scheme_prefix (trim raw) ->
      Part000.normalize raw = js "https://" ++ trim raw)
  /\ (Part000.isValidUrlResolved E (Part000.normalize raw) = false ->
      Part000.post_shorten E now (Some raw) customCode w
      = (Returned (Render (live_rows w) (Some msg_invalid)), w))
  /\ (forall urlString u,
        URL_new E urlString = Some u ->
        protocol u <> js "http:" ->
        protocol u <> js "https:" ->
        Part000.isValidUrlResolved E urlString = false)
  /\ (forall u,
        URL_new E (Part000.normalize raw) = Some u ->
        protocol u <> js "http:" ->
        protocol u <> js "https:" ->
        Part000.post_shorten E now (Some raw) customCode w
        = (Returned (Render (live_rows w) (Some msg_invalid)), w))
  /\ (forall r w',
        Part000.post_shorten E now (Some raw) customCode w
        = (Returned r, w') ->
        links w' <> links w ->
        exists u,
          URL_new E (Part000.normalize raw) = Some u
          /\ (protocol u = js "http:" \/ protocol u = js "https:")).
Proof.
  intros Hraw.
  assert (Hproto : forall urlString u,
             URL_new E urlString = Some u ->
             protocol u <> js "http:" ->
             protocol u <> js "https:" ->
             Part000.isValidUrlResolved E urlString = false).
  { intros s u Hu H1 H2.
    destruct (Part000.isValidUrlResolved E s) eqn:Hv; auto.
    apply isValidUrlResolved_iff in Hv.
    destruct Hv as (u' & Hu' & Hp & _).
    rewrite Hu in Hu'. inversion Hu'; subst u'. tauto. }
  split; [|split; [|split; [|split; [|split]]]].
  - apply normalize_prefix.
  - apply normalize_prefix.
  - intros Hbad. apply post_shorten_invalid; auto.
  - exact Hproto.
  - intros u Hu H1 H2. apply post_shorten_invalid; auto.
    exact (Hproto _ u Hu H1 H2).
  - intros r w' Hrun Hch.
    destruct (Part000.isValidUrlResolved E (Part000.normalize raw)) eqn:Hv.
    + apply isValidUrlResolved_iff in Hv.
      destruct Hv as (u & Hu & Hp & _). eauto.
    + rewrite (post_shorten_invalid E now raw customCode w Hraw Hv) in Hrun.
      inversion Hrun; subst. congruence.
Qed.

(** An input with white space around it and an [ftp] scheme: it is trimmed,
    prefixed, and refused; the validation alone refuses the [ftp] URL for its
    protocol. *)
Lemma C9_witness :
  truthy (js " ftp://example.com ") = true
  /\ Part000.normalize (js " ftp://example.com ")
     = js "https://ftp://example.com"
  /\ Part000.post_shorten (Sample.env []) 5 (Some (js " ftp://example.com "))
       None (Sample.world [])
     = (Returned (Render [] (Some msg_invalid)), Sample.world [])
  /\ Part000.isValidUrlResolved (Sample.env []) (js "ftp://example.com")
     = false.
Proof.
  destruct (C9_trim_prefix_then_validate (Sample.env []) 5
              (js " ftp://example.com ") None (Sample.world []) eq_refl)
    as (_ & Hpre & Hrej & Hproto & _).
  split; [reflexivity|]. split; [|split].
  - apply Hpre. intros [r [Hr|Hr]]; vm_compute in Hr; discriminate.
  - apply Hrej. reflexivity.
  - apply (Hproto (js "ftp://example.com")
             {| protocol := js "ftp:"; hostname := js "example.com";
                href := js "ftp://example.com/" |}).
    + reflexivity.
    + vm_compute. discriminate.
    + vm_compute. discriminate.
Defined.

(* ================================================================== *)
(** * The codes that are generated *)
(* ================================================================== *)

Section GeneratedCodes.

Variable E : Env.

Lemma alphabet_length : List.length alphabet = 62.
Proof. reflexivity. Qed.

Lemma alphabet_alphanumeric : alphanumeric alphabet.
Proof.
  unfold alphanumeric. apply Forall_forall. intros c Hc.
  assert (H : forallb (fun c => ascii_letter c || ascii_digit c) alphabet
              = true) by reflexivity.
  rewrite forallb_forall in H. exact (H c Hc).
Qed.

Lemma alphabet_NoDup : NoDup alphabet.
Proof.
  assert (H : forall (l : list N),
             (fix nodup (l : list N) : bool :=
                match l with
                | [] => true
                | x :: r => negb (existsb (N.eqb x) r) && nodup r
                end) l = true -> NoDup l).
  { induction l as [|x r IH]; intros Hl; constructor.
    - apply andb_true_iff in Hl. destruct Hl as [Hx _].
      apply negb_true_iff in Hx. intros Hin.
      assert (existsb (N.eqb x) r = true)
        by (apply existsb_exists; exists x; split; auto; apply N.eqb_refl).
      congruence.
    - apply andb_true_iff in Hl. apply IH, Hl. }
  apply H. vm_compute. reflexivity.
Qed.

(** Every symbol of a draw is a symbol of the alphabet. *)
Lemma nth_draw_in_alphabet w i :
  Forall (fun ch => In ch alphabet) (nth_draw E w i).
Proof.
  unfold nth_draw, Part000.nano, customAlphabet. cbn [fst].
  apply Forall_forall. intros ch Hch.
  apply in_map_iff in Hch. destruct Hch as (k & <- & _).
  apply nth_In. rewrite alphabet_length.
  change (N.of_nat 62) with 62%N.
  pose proof (N.mod_upper_bound
                (entropy E (drawn {| links := links w;
                                     drawn := drawn w + 6 * i |} + k))
                62%N).
  lia.
Qed.

Lemma nth_draw_alphanumeric w i : alphanumeric (nth_draw E w i).
Proof.
  pose proof (nth_draw_in_alphabet w i) as H.
  pose proof alphabet_alphanumeric as Ha.
  unfold alphanumeric in *. rewrite Forall_forall in *.
  intros c Hc. apply Ha, H, Hc.
Qed.

(** A property of the numbers below 1000 that is checked by running it. *)
Lemma below_1000 (P : N -> bool) :
  forallb P (map N.of_nat (seq 0 1000)) = true ->
  forall n, (n < 1000)%N -> P n = true.
Proof.
  intros H n Hn. rewrite forallb_forall in H. apply H.
  apply in_map_iff. exists (N.to_nat n). split.
  - apply N2Nat.id.
  - apply in_seq. lia.
Qed.

(** The suffix has one to three decimal digits. *)
Lemma suffix_shape n :
  (n < 1000)%N ->
  alphanumeric (Number_toString n)
  /\ 1 <= List.length (Number_toString n) <= 3.
Proof.
  intros Hn.
  pose proof (below_1000
    (fun n => forallb (fun c => ascii_letter c || ascii_digit c)
                      (Number_toString n)
              && (1 <=? List.length (Number_toString n))
              && (List.length (Number_toString n) <=? 3))) as H.
  assert (Hall : forallb
             (fun n => forallb (fun c => ascii_letter c || ascii_digit c)
                         (Number_toString n)
                       && (1 <=? List.length (Number_toString n))
                       && (List.length (Number_toString n) <=? 3))
             (map N.of_nat (seq 0 1000)) = true)
    by (vm_compute; reflexivity).
  specialize (H Hall n Hn). cbv beta in H.
  rewrite !andb_true_iff, forallb_forall, !Nat.leb_le in H.
  destruct H as [[Hc H1] H3]. repeat split; auto.
  unfold alphanumeric. apply Forall_forall. exact Hc.
Qed.

(** The suffix denotes the number it was made from. *)
Lemma suffix_reads_back n :
  (n < 1000)%N -> decimal_value (Number_toString n) = n.
Proof.
  intros Hn. apply N.eqb_eq.
  apply (below_1000 (fun n => (decimal_value (Number_toString n) =? n)%N));
    [vm_compute; reflexivity | exact Hn].
Qed.

Lemma fallback_suffix_below w : (entropy E (drawn w + 66) mod 1000 < 1000)%N.
Proof. apply N.mod_upper_bound. discriminate. Qed.

Lemma fallback_code_shape w :
  alphanumeric (fallback_code E w)
  /\ 7 <= List.length (fallback_code E w) <= 9.
Proof.
  unfold fallback_code.
  destruct (suffix_shape _ (fallback_suffix_below w)) as [Ha Hl].
  split.
  - unfold alphanumeric in *. apply Forall_app. split; auto.
    apply nth_draw_alphanumeric.
  - rewrite length_app, nth_draw_length. lia.
Qed.

(** Wherever a new code comes from, it is alphanumeric and has three to
    nine code units. *)
Lemma origin_shape w customCode c :
  CodeOrigin E w customCode c ->
  alphanumeric c /\ 3 <= List.length c <= 9.
Proof.
  intros [c' _ Hre | i _ _ | _ _].
  - apply re_code_syntax in Hre. destruct Hre as [Ha Hl]. split; auto. lia.
  - split; [apply nth_draw_alphanumeric|]. rewrite nth_draw_length. lia.
  - destruct (fallback_code_shape w). split; auto. lia.
Qed.

End GeneratedCodes.

(** C3 fails as stated: when the ten draws collide, the fallback code is a
    draw followed by up to three digits.  Here the table holds "aaaaaa", the
    random stream draws it eleven times and then gives 123: the row added has
    the code "aaaaaa123", which has nine code units. *)
Lemma C3_counterexample :
  map code
      (links (snd (Part000.post_shorten
                     (Sample.env (repeat 0%N 66 ++ [123%N])) 5
                     (Some (js "example.com")) None
                     (Sample.world
                        [Sample.row "aaaaaa" "https://example.com/" 0 false]))))
  = [js "aaaaaa"; js "aaaaaa123"]
  /\ ~ code_syntax (js "aaaaaa123").
Proof.
  split; [vm_compute; reflexivity|].
  intros [_ [_ Hlen]]. vm_compute in Hlen. lia.
Qed.

(** C3, amended.  Every code [app.post("/shorten")] stores is made of ASCII
    letters and digits only and has between 3 and 9 code units: a custom code
    has 3 to 8, a drawn code exactly 6, the fallback code 7 to 9.  A request
    adds at most one row, with a code of one of these three origins, so the
    property holds of a whole table once it holds before a run. *)
Theorem C3_stored_codes_alnum_3_to_9 (E : Env) :
  (forall customCode c,
      trimmed_or_null customCode = Some c ->
      test Part000.re_code c = true ->
      alphanumeric c /\ 3 <= List.length c <= 8)
  /\ (forall w i,
        alphanumeric (nth_draw E w i) /\ List.length (nth_draw E w i) = 6)
  /\ (forall w,
        alphanumeric (fallback_code E w)
        /\ 7 <= List.length (fallback_code E w) <= 9)
  /\ (forall now FullUrl customCode w,
        exists r w',
          Part000.post_shorten E now FullUrl customCode w = (Returned r, w')
          /\ (links w' = links w
              \/ exists c url,
                   links w' = links w ++ [new_row now c url]
                   /\ CodeOrigin E w customCode c
                   /\ alphanumeric c /\ 3 <= List.length c <= 9))
  /\ (forall rs w,
        Forall (fun l => alphanumeric (code l)
                         /\ 3 <= List.length (code l) <= 9) (links w) ->
        Forall (fun l => alphanumeric (code l)
                         /\ 3 <= List.length (code l) <= 9)
               (links (snd (serve E rs w)))).
Proof.
  assert (Hstep : forall now FullUrl customCode w,
             exists r w',
               Part000.post_shorten E now FullUrl customCode w
               = (Returned r, w')
               /\ (links w' = links w
                   \/ exists c url,
                        links w' = links w ++ [new_row now c url]
                        /\ CodeOrigin E w customCode c
                        /\ alphanumeric c /\ 3 <= List.length c <= 9)).
  { intros now F C w.
    destruct (post_shorten_cases E now F C w) as (r & w' & Hrun & Hres).
    exists r, w'. split; auto.
    destruct Hres as [msg w' Hl _|raw c w' _ _ _ Ho _ Hl _]; auto.
    right. exists c, (Part000.normalize raw).
    pose proof (origin_shape E w C c Ho). tauto. }
  split; [|split; [|split; [|split]]].
  - intros C c _ Hre. exact (proj1 (re_code_syntax c) Hre).
  - intros w i. split; [apply nth_draw_alphanumeric|apply nth_draw_length].
  - apply fallback_code_shape.
  - exact Hstep.
  - induction rs as [|r rs IH]; intros w Hw; cbn [serve]; auto.
    assert (H1 : Forall (fun l => alphanumeric (code l)
                                  /\ 3 <= List.length (code l) <= 9)
                        (links (snd (handle E r w)))).
    { destruct r as [now F C|now c|c|]; cbn [handle].
      - destruct (Hstep now F C w) as (r & w' & Hrun & Hl).
        rewrite Hrun. cbn [snd].
        destruct Hl as [->|(c & url & -> & _ & Hc)]; auto.
        apply Forall_app. split; auto.
      - rewrite get_code_run. cbn [snd links].
        rewrite Forall_forall in *. intros l Hl.
        apply in_map_iff in Hl. destruct Hl as (x & <- & Hx).
        rewrite click_code. auto.
      - rewrite post_delete_run. cbn [snd links].
        rewrite Forall_forall in *. intros l Hl.
        apply in_map_iff in Hl. destruct Hl as (x & <- & Hx).
        rewrite mark_code. auto.
      - exact Hw. }
    destruct (handle E r w) as [o w1]. cbn [snd] in H1.
    specialize (IH w1 H1).
    destruct (serve E rs w1) as [log w2]. exact IH.
Qed.

(** A custom code, then a generated one, on an empty table. *)
Lemma C3_witness :
  Forall (fun l => alphanumeric (code l) /\ 3 <= List.length (code l) <= 9)
         (links (snd (serve (Sample.env [])
                        [PostShorten 1 (Some (js "example.com"))
                                     (Some (js "abc"));
                         PostShorten 2 (Some (js "example.com/path")) None]
                        (Sample.world [])))).
Proof.
  apply (C3_stored_codes_alnum_3_to_9 (Sample.env [])).
  constructor.
Defined.

(** C4. With a valid URL and no custom code, [app.post("/shorten")] draws
    codes of six symbols of the 62-symbol alphanumeric alphabet, a fresh one
    per attempt, and keeps the first of at most ten that has no row; when
    the ten all have a row it draws once more, appends the decimal digits of
    a random integer from 0 to 999, and sends the INSERT with that code
    (which adds the row unless that code has a row too). *)
Theorem C4_ten_draws_then_fallback (E : Env) (now : N) (raw : jsstring)
    (customCode : option jsstring) (w : World) :
  truthy raw = true ->
  Part000.isValidUrlResolved E (Part000.normalize raw) = true ->
  trimmed_or_null customCode = None ->
  (forall i,
      List.length (nth_draw E w i) = 6
      /\ Forall (fun ch => In ch alphabet) (nth_draw E w i))
  /\ List.length alphabet = 62 /\ NoDup alphabet /\ alphanumeric alphabet
  /\ (forall i,
        i < 10 ->
        (forall j, j < i -> taken (nth_draw E w j) w = true) ->
        taken (nth_draw E w i) w = false ->
        Part000.post_shorten E now (Some raw) customCode w
        = (Returned (Redirect (js "/")),
           {| links := links w ++ [new_row now (nth_draw E w i)
                                           (Part000.normalize raw)];
              drawn := drawn w + 6 * (i + 1) |}))
  /\ ((forall j, j < 10 -> taken (nth_draw E w j) w = true) ->
      exists n,
        (n < 1000)%N
        /\ decimal_value (Number_toString n) = n
        /\ fallback_code E w = nth_draw E w 10 ++ Number_toString n
        /\ Part000.post_shorten E now (Some raw) customCode w
           = if taken (fallback_code E w) w
             then (Returned (Render (live_rows w)
                               (Some Part000.msg_collided)),
                   {| links := links w; drawn := drawn w + 6 * 11 + 1 |})
             else (Returned (Redirect (js "/")),
                   {| links := links w ++ [new_row now (fallback_code E w)
                                                   (Part000.normalize raw)];
                      drawn := drawn w + 6 * 11 + 1 |})).
Proof.
  intros Hraw Hok Hnone.
  rewrite (post_shorten_generated E now raw customCode w Hraw Hok Hnone).
  split; [|split; [|split; [|split; [|split]]]].
  - intros i. split; [apply nth_draw_length|apply nth_draw_in_alphabet].
  - apply alphabet_length.
  - apply alphabet_NoDup.
  - apply alphabet_alphanumeric.
  - intros i Hi Hb Hf.
    rewrite (generated_branch_free E now _ w i Hi Hb Hf).
    do 3 f_equal. lia.
  - intros Hall. exists (entropy E (drawn w + 66) mod 1000)%N.
    split; [apply fallback_suffix_below|].
    split; [apply suffix_reads_back, fallback_suffix_below|].
    split; [reflexivity|].
    rewrite (generated_branch_fallback E now _ w Hall).
    replace (drawn w + 6 * 11 + 1) with (drawn w + 67) by lia.
    reflexivity.
Qed.

(** On an empty table the first draw is kept; the stream of zeros draws
    "aaaaaa". *)
Lemma C4_witness :
  Part000.post_shorten (Sample.env []) 5 (Some (js "example.com/path")) None
    (Sample.world [])
  = (Returned (Redirect (js "/")),
     {| links := [new_row 5 (js "aaaaaa") (js "https://example.com/path")];
        drawn := 6 |}).
Proof.
  destruct (C4_ten_draws_then_fallback (Sample.env []) 5
              (js "example.com/path") None (Sample.world [])
              eq_refl eq_refl eq_refl) as (_ & _ & _ & _ & Hfree & _).
  apply (Hfree 0).
  - lia.
  - intros j Hj. lia.
  - reflexivity.
Defined.

(* ================================================================== *)
(** * Custom codes and the stored target *)
(* ================================================================== *)

Section CustomAndTarget.

Variable E : Env.

Lemma trim_nil : trim [] = [].
Proof. reflexivity. Qed.

Lemma trimmed_or_null_trim cc :
  trim cc <> [] -> trimmed_or_null (Some cc) = Some (trim cc).
Proof.
  intros Hne. unfold trimmed_or_null.
  assert (Hcc : truthy cc = true).
  { destruct cc; [exfalso; apply Hne; reflexivity | reflexivity]. }
  assert (Ht : truthy (trim cc) = true).
  { destruct (trim cc); [congruence | reflexivity]. }
  rewrite Hcc, Ht. reflexivity.
Qed.

End CustomAndTarget.

(** C6 fails as stated: the custom code is trimmed before it is checked, so
    a supplied code that does not match the pattern only because of white
    space around it is accepted.  Here "abc " is stored as "abc". *)
Lemma C6_counterexample :
  truthy (trim (js "abc ")) = true
  /\ test Part000.re_code (js "abc ") = false
  /\ Part000.isValidUrlResolved (Sample.env [])
       (Part000.normalize (js "example.com")) = true
  /\ Part000.post_shorten (Sample.env []) 5 (Some (js "example.com"))
       (Some (js "abc ")) (Sample.world [])
     = (Returned (Redirect (js "/")),
        {| links := [new_row 5 (js "abc") (js "https://example.com")];
           drawn := 0 |}).
Proof. repeat split. Qed.

(** C6, amended.  With a valid URL, a supplied custom code whose trimmed
    form is not empty and does not match [[A-Za-z0-9]{3,8}] is answered by
    the page with "Custom code must be 3-8 alphanumeric characters", whatever
    the table holds (the pattern is tested before the look-up and the
    insert), and the world is untouched; "ab" is such a code. *)
Theorem C6_bad_code_format (E : Env) (now : N) (raw : jsstring) (w : World) :
  truthy raw = true ->
  Part000.isValidUrlResolved E (Part000.normalize raw) = true ->
  (forall customCode,
      trim customCode <> [] ->
      ~ code_syntax (trim customCode) ->
      Part000.post_shorten E now (Some raw) (Some customCode) w
      = (Returned
           (Render (live_rows w)
              (Some (js "Custom code must be 3-8 alphanumeric characters"))),
         w))
  /\ Part000.post_shorten E now (Some raw) (Some (js "ab")) w
     = (Returned
          (Render (live_rows w)
             (Some (js "Custom code must be 3-8 alphanumeric characters"))),
        w).
Proof.
  intros Hraw Hok.
  assert (H : forall customCode,
             trim customCode <> [] ->
             ~ code_syntax (trim customCode) ->
             Part000.post_shorten E now (Some raw) (Some customCode) w
             = (Returned
                  (Render (live_rows w)
                     (Some (js "Custom code must be 3-8 alphanumeric characters"))),
                w)).
  { intros cc Hne Hbad.
    rewrite (post_shorten_custom E now raw (Some cc) (trim cc) w Hraw Hok
               (trimmed_or_null_trim cc Hne)).
    rewrite custom_branch_run.
    destruct (test Part000.re_code (trim cc)) eqn:Hre.
    - exfalso. apply Hbad, re_code_syntax, Hre.
    - reflexivity. }
  split; [exact H|].
  apply H.
  - vm_compute. discriminate.
  - intros [_ [Hlen _]]. vm_compute in Hlen. lia.
Qed.

(** "example.com" with the custom code "ab", on a table that is not empty. *)
Lemma C6_witness :
  Part000.post_shorten (Sample.env []) 5 (Some (js "example.com"))
    (Some (js "ab"))
    (Sample.world [Sample.row "abc" "https://example.com/" 3 false])
  = (Returned
       (Render [columns (Sample.row "abc" "https://example.com/" 3 false)]
          (Some (js "Custom code must be 3-8 alphanumeric characters"))),
     Sample.world [Sample.row "abc" "https://example.com/" 3 false]).
Proof.
  apply (C6_bad_code_format (Sample.env []) 5 (js "example.com")
           (Sample.world [Sample.row "abc" "https://example.com/" 3 false])
           eq_refl eq_refl).
Defined.

(** C10 fails as stated: the handler stores the string it validated, not
    the serialisation of the URL parsed from it.  For "example.com:443/path"
    the parsed URL serialises without the default port, the stored target
    keeps it. *)
Lemma C10_counterexample :
  Part000.isValidUrlResolved (Sample.env [])
    (Part000.normalize (js "example.com:443/path")) = true
  /\ option_map href
       (URL_new (Sample.env [])
          (Part000.normalize (js "example.com:443/path")))
     = Some (js "https://example.com/path")
  /\ map target_url
       (links (snd (Part000.post_shorten (Sample.env []) 5
                      (Some (js "example.com:443/path")) None
                      (Sample.world []))))
     = [js "https://example.com:443/path"]
  /\ js "https://example.com:443/path" <> js "https://example.com/path".
Proof. repeat split. vm_compute. discriminate. Qed.

(** C10, amended.  When [app.post("/shorten")] adds a row, its
    [target_url] is the trimmed input itself if that starts with ["http://"]
    or ["https://"], and ["https://"] followed by the trimmed input
    otherwise: scheme and host are explicit, path and query are kept as
    typed, nothing is re-serialised.  That string parses to an http or https
    URL whose host name meets the conditions of the validation.  The new row
    starts with no clicks. *)
Theorem C10_stored_target_is_prefixed_input (E : Env) (now : N)
    (FullUrl customCode : option jsstring) (w : World)
    (r : Response) (w' : World) :
  Part000.post_shorten E now FullUrl customCode w = (Returned r, w') ->
  links w' <> links w ->
  exists raw c u,
    FullUrl = Some raw
    /\ links w'
       = links w ++ [{| code := c; target_url := Part000.normalize raw;
                        total_clicks := 0; last_clicked := None;
                        created_at := now; deleted := false |}]
    /\ (has_scheme_prefix (trim raw) -> Part000.normalize raw = trim raw)
    /\ (~ has_scheme_prefix (trim raw) ->
        Part000.normalize raw = js "https://" ++ trim raw)
    /\ URL_new E (Part000.normalize raw) = Some u
    /\ (protocol u = js "http:" \/ protocol u = js "https:")
    /\ hostname_ok (hostname u).
Proof.
  intros Hrun Hch.
  destruct (post_shorten_cases E now FullUrl customCode w)
    as (r0 & w0 & Hrun0 & Hres).
  rewrite Hrun in Hrun0. inversion Hrun0; subst r0 w0.
  destruct Hres as [msg w' Hl _|raw c w' HF Hraw Hok _ _ Hl _];
    [congruence|].
  pose proof (proj1 (isValidUrlResolved_iff E _) Hok)
    as (u & Hu & Hp & Hh & _).
  destruct (normalize_prefix raw) as (H1 & H2).
  exists raw, c, u.
  split; [exact HF|]. split; [exact Hl|]. split; [exact H1|].
  split; [exact H2|]. split; [exact Hu|]. split; [exact Hp|exact Hh].
Qed.

(** The scenario of the specification: "example.com/path" is stored as
    "https://example.com/path", with no clicks. *)
Lemma C10_witness :
  exists c,
    links (snd (Part000.post_shorten (Sample.env []) 5
                  (Some (js "example.com/path")) None (Sample.world [])))
    = [{| code := c; target_url := js "https://example.com/path";
          total_clicks := 0; last_clicked := None; created_at := 5;
          deleted := false |}].
Proof.
  destruct (C10_stored_target_is_prefixed_input (Sample.env []) 5
              (Some (js "example.com/path")) None (Sample.world [])
              (Redirect (js "/"))
              (snd (Part000.post_shorten (Sample.env []) 5
                      (Some (js "example.com/path")) None
                      (Sample.world []))))
    as (raw & c & u & HF & Hl & _).
  - reflexivity.
  - vm_compute. discriminate.
  - exists c. inversion HF; subst raw. exact Hl.
Defined.


(* ================================================================== *)
(** * Remarks on [src/server.js] *)
(* ================================================================== *)

Section ServerRemarks.

Variable E : Env.

(** The loop of the shorter server draws the same codes. *)
Lemma server_draw_code n : forall w,
  Server.draw_code E n w = Part000.draw_code E n w.
Proof.
  induction n as [|n IH]; intros w; [reflexivity|].
  transitivity
    (if taken (nth_draw E w 0) w
     then Server.draw_code E n {| links := links w; drawn := drawn w + 6 |}
     else (Returned (Some (nth_draw E w 0)),
           {| links := links w; drawn := drawn w + 6 |})).
  - cbn [Server.draw_code]. rewrite bind_run.
    change (Server.nano E) with (Part000.nano E).
    rewrite nano_run. cbv beta iota.
    rewrite bind_run. unfold select_code at 1. cbv beta iota.
    cbn [links]. rewrite rowCount_select. unfold taken.
    destruct (existsb (has_code (nth_draw E w 0)) (links w)); reflexivity.
  - rewrite IH. symmetry. apply draw_code_step.
Qed.

(** It has no fallback: when the ten draws all have a row, [code] is still
    [null] at the INSERT, which the table refuses. *)
Lemma server_no_fallback now url w :
  (forall j, j < 10 -> taken (nth_draw E w j) w = true) ->
  Server.generated_branch E now url w
  = (Thrown (PgError (js "23502")),
     {| links := links w; drawn := drawn w + 60 |}).
Proof.
  intros Hall. unfold Server.generated_branch.
  rewrite bind_run, server_draw_code, (draw_code_exhausted E 10 w Hall).
  reflexivity.
Qed.

(** Its creation request adds at most one row, under a code that had no
    row; that code is a custom code that matches the pattern or one of the
    ten draws, so it is alphanumeric with 3 to 8 code units. *)
Lemma server_post_shorten_rows now FullUrl customCode w :
  exists o w',
    Server.post_shorten E now FullUrl customCode w = (o, w')
    /\ (links w' = links w
        \/ exists c url,
             links w' = links w ++ [new_row now c url]
             /\ taken c w = false
             /\ alphanumeric c /\ 3 <= List.length c <= 8).
Proof.
  unfold Server.post_shorten.
  destruct (falsy FullUrl); [do 2 eexists; split; [reflexivity|auto]|].
  destruct (Server.normalize E _) as [url|];
    [|do 2 eexists; split; [reflexivity|auto]].
  assert (Hgen : exists o w',
             Server.generated_branch E now url w = (o, w')
             /\ (links w' = links w
                 \/ exists c url0,
                      links w' = links w ++ [new_row now c url0]
                      /\ taken c w = false
                      /\ alphanumeric c /\ 3 <= List.length c <= 8)).
  { destruct (first_free E 10 w) as [(i & Hi & Hb & Hf)|Hall].
    - unfold Server.generated_branch.
      rewrite bind_run, server_draw_code, (draw_code_free E 10 w i Hi Hb Hf).
      cbv beta iota. rewrite bind_run. unfold insert_link, violation.
      cbn [links]. fold (taken (nth_draw E w i) w). rewrite Hf.
      do 2 eexists; split; [reflexivity|]. right.
      exists (nth_draw E w i), url. cbn [links].
      split; [reflexivity|]. split; [exact Hf|].
      split; [apply nth_draw_alphanumeric|]. rewrite nth_draw_length. lia.
    - rewrite (server_no_fallback now url w Hall).
      do 2 eexists; split; [reflexivity|auto]. }
  destruct (trimmed_or_null customCode) as [c|] eqn:HC; [|exact Hgen].
  destruct (trimmed_or_null_some _ _ HC) as [-> _].
  unfold Server.custom_branch.
  rewrite bind_run. unfold select_code at 1. cbv beta iota.
  rewrite rowCount_select_pos. fold (taken c w).
  destruct (taken c w) eqn:Ht;
    [do 2 eexists; split; [reflexivity|auto]|].
  change Server.re_code with Part000.re_code.
  destruct (test Part000.re_code c) eqn:Hre; cbn [negb];
    [|do 2 eexists; split; [reflexivity|auto]].
  rewrite bind_run. unfold insert_link, violation. fold (taken c w).
  rewrite Ht. do 2 eexists; split; [reflexivity|]. right.
  exists c, url. cbn [links]. apply re_code_syntax in Hre.
  destruct Hre. auto.
Qed.

End ServerRemarks.

(** It stores the serialisation of the parsed URL, and it accepts every host
    the parser accepts. *)
Example server_stores_href :
  map target_url
      (links (snd (Server.post_shorten (Sample.env []) 5
                     (Some (js "example.com:443/path")) None
                     (Sample.world []))))
  = [js "https://example.com/path"]
  /\ map target_url
        (links (snd (Server.post_shorten (Sample.env []) 5
                       (Some (js "localhost")) None (Sample.world []))))
     = [js "https://localhost/"].
Proof. split; reflexivity. Qed.

(* ================================================================== *)
(** * The listing *)
(* ================================================================== *)

Section Listing.

Lemma insert_desc_perm l (sorted : list Link) :
  Permutation (insert_desc l sorted) (l :: sorted).
Proof.
  induction sorted as [|x rest IH]; simpl; auto.
  destruct (created_at x <? created_at l)%N; auto.
  rewrite IH. apply perm_swap.
Qed.

Lemma order_by_created_desc_perm (rows : list Link) :
  Permutation (order_by_created_desc rows) rows.
Proof.
  induction rows as [|l rows IH]; simpl; auto.
  rewrite insert_desc_perm. auto.
Qed.

Lemma insert_desc_sorted l (sorted : list Link) :
  StronglySorted newest_first sorted ->
  StronglySorted newest_first (insert_desc l sorted).
Proof.
  induction sorted as [|x rest IH]; intros Hs; simpl.
  - repeat constructor.
  - inversion Hs as [|? ? Hrest Hx]; subst.
    destruct (created_at x <? created_at l)%N eqn:Hlt.
    + apply N.ltb_lt in Hlt. constructor; auto.
      constructor.
      * unfold newest_first. lia.
      * rewrite Forall_forall in *. intros y Hy.
        specialize (Hx y Hy). unfold newest_first in *. lia.
    + apply N.ltb_ge in Hlt. constructor; auto.
      assert (Hall : Forall (newest_first x) (l :: rest))
        by (constructor; auto).
      exact (Permutation_Forall
               (Permutation_sym (insert_desc_perm l rest)) Hall).
Qed.

Lemma order_by_created_desc_sorted (rows : list Link) :
  StronglySorted newest_first (order_by_created_desc rows).
Proof.
  induction rows as [|l rows IH]; simpl.
  - constructor.
  - apply insert_desc_sorted, IH.
Qed.

(** A listed row is the columns of a row that is not deleted. *)
Lemma live_rows_In w x :
  In x (live_rows w)
  <-> exists l, In l (links w) /\ deleted l = false /\ columns l = x.
Proof.
  unfold live_rows. rewrite in_map_iff. split.
  - intros (l & Hx & Hl).
    apply (Permutation_in _ (order_by_created_desc_perm _)) in Hl.
    apply filter_In in Hl. destruct Hl as [Hl Hd].
    apply negb_true_iff in Hd. eauto.
  - intros (l & Hl & Hd & Hx). exists l. split; auto.
    apply (Permutation_in _ (Permutation_sym (order_by_created_desc_perm _))).
    apply filter_In. split; auto. rewrite Hd. reflexivity.
Qed.

End Listing.

(** X1. [fetchLinks] and [app.get("/")] of both servers answer the index
    page with the four listed columns of exactly the rows that are not
    deleted, each once, the newest first, and leave the world as it is. *)
Theorem X1_listing_live_newest_first (w : World) :
  exists sorted,
    Part000.get_root w = (Returned (Render (map columns sorted) None), w)
    /\ Part000.fetchLinks w = (Returned (map columns sorted), w)
    /\ Permutation sorted (filter (fun l => negb (deleted l)) (links w))
    /\ StronglySorted newest_first sorted
    /\ (forall l, In l sorted <-> In l (links w) /\ deleted l = false)
    /\ Server.get_root w = Part000.get_root w.
Proof.
  exists (order_by_created_desc
            (filter (fun l => negb (deleted l)) (links w))).
  split; [reflexivity|]. split; [reflexivity|].
  split; [apply order_by_created_desc_perm|].
  split; [apply order_by_created_desc_sorted|].
  split; [|reflexivity].
  intros l. split.
  - intros Hl.
    apply (Permutation_in _ (order_by_created_desc_perm _)) in Hl.
    apply filter_In in Hl. destruct Hl as [Hl Hd].
    apply negb_true_iff in Hd. auto.
  - intros [Hl Hd].
    apply (Permutation_in _ (Permutation_sym (order_by_created_desc_perm _))).
    apply filter_In. rewrite Hd. auto.
Qed.

(* ================================================================== *)
(** * White space around the inputs, and the validated string *)
(* ================================================================== *)

Section Trimming.

Variable E : Env.

Lemma trimStart_fixed (s : jsstring) :
  (forall c r, s = c :: r -> isWhiteSpace c = false) -> trimStart s = s.
Proof.
  destruct s as [|c r]; intros H; simpl; auto.
  rewrite (H c r eq_refl). reflexivity.
Qed.

(** A string that neither starts nor ends with white space is its own
    trimmed form. *)
Lemma trim_fixed (s : jsstring) :
  (forall c r, s = c :: r -> isWhiteSpace c = false) ->
  (forall c r, s = r ++ [c] -> isWhiteSpace c = false) ->
  trim s = s.
Proof.
  intros Hhead Hlast. unfold trim, trimEnd.
  rewrite (trimStart_fixed s Hhead).
  rewrite trimStart_fixed; [apply rev_involutive|].
  intros c r Hr. apply (Hlast c (rev r)).
  rewrite <- (rev_involutive s), Hr. reflexivity.
Qed.

Lemma trim_idem (s : jsstring) : trim (trim s) = trim s.
Proof.
  destruct (trim_spec s) as (_ & _ & _ & _ & _ & Hhead & Hlast).
  apply trim_fixed; assumption.
Qed.

Lemma trimmed_or_null_trim_arg cc :
  trimmed_or_null (Some (trim cc)) = trimmed_or_null (Some cc).
Proof.
  unfold trimmed_or_null. rewrite trim_idem, andb_diag.
  destruct (truthy (trim cc)) eqn:Ht.
  - assert (Hcc : truthy cc = true).
    { destruct cc; [discriminate Ht | reflexivity]. }
    rewrite Hcc. reflexivity.
  - rewrite andb_false_r. reflexivity.
Qed.

Lemma trimmed_or_null_blank cc :
  trim cc = [] -> trimmed_or_null (Some cc) = None.
Proof.
  intros H. unfold trimmed_or_null. rewrite H, andb_false_r. reflexivity.
Qed.

Lemma normalize_trim_arg raw :
  Part000.normalize (trim raw) = Part000.normalize raw.
Proof. unfold Part000.normalize. rewrite trim_idem. reflexivity. Qed.

(** The handlers read [customCode] through [trimmed_or_null] only. *)
Lemma post_shorten_code_ext now FullUrl C C' w :
  trimmed_or_null C = trimmed_or_null C' ->
  Part000.post_shorten E now FullUrl C w
  = Part000.post_shorten E now FullUrl C' w
  /\ Server.post_shorten E now FullUrl C w
     = Server.post_shorten E now FullUrl C' w.
Proof.
  intros H. unfold Part000.post_shorten, Server.post_shorten.
  rewrite H. split; reflexivity.
Qed.

(** The validated string keeps its scheme prefix and is free of white space
    at both ends. *)
Lemma normalize_shape raw :
  has_scheme_prefix (Part000.normalize raw)
  /\ trim (Part000.normalize raw) = Part000.normalize raw.
Proof.
  destruct (trim_spec raw) as (_ & _ & _ & _ & _ & Hhead & Hlast).
  unfold Part000.normalize. cbv zeta.
  destruct (startsWith (trim raw) (js "http://")) eqn:H1; cbn [negb andb].
  { split; [|apply trim_idem].
    apply startsWith_iff in H1. destruct H1 as [r Hr].
    exists r. auto. }
  destruct (startsWith (trim raw) (js "https://")) eqn:H2; cbn [negb andb].
  { split; [|apply trim_idem].
    apply startsWith_iff in H2. destruct H2 as [r Hr].
    exists r. auto. }
  split; [exists (trim raw); auto|].
  apply trim_fixed.
  - intros c r Hr. change (js "https://" ++ trim raw)
      with (104%N :: (js "ttps://" ++ trim raw)) in Hr.
    inversion Hr; subst. reflexivity.
  - intros c r Hr.
    destruct (trim raw) as [|d t] eqn:Ht.
    + rewrite app_nil_r in Hr.
      change (js "https://") with (js "https:/" ++ [47%N]) in Hr.
      apply app_inj_tail in Hr. destruct Hr as [_ <-]. reflexivity.
    + destruct (exists_last (l := d :: t)) as (t' & z & Hz);
        [discriminate|].
      rewrite Hz, app_assoc in Hr.
      apply app_inj_tail in Hr. destruct Hr as [_ <-].
      exact (Hlast z t' Hz).
Qed.

End Trimming.

(** X2. [isValidUrlResolved] accepts a string exactly when it parses, the
    protocol of the parsed URL is [http:] or [https:], its host name meets
    the conditions on host names, and the host name resolves; so a string
    that does not parse, and a well-formed URL whose host does not resolve,
    are both refused. *)
Theorem X2_validation_exact (E : Env) (urlString : jsstring) :
  (Part000.isValidUrlResolved E urlString = true
   <-> exists u,
         URL_new E urlString = Some u
         /\ (protocol u = js "http:" \/ protocol u = js "https:")
         /\ hostname_ok (hostname u)
         /\ dnsLookup E (hostname u) = true)
  /\ (URL_new E urlString = None ->
      Part000.isValidUrlResolved E urlString = false)
  /\ (forall u,
        URL_new E urlString = Some u ->
        dnsLookup E (hostname u) = false ->
        Part000.isValidUrlResolved E urlString = false).
Proof.
  split; [apply isValidUrlResolved_iff|]. split.
  - intros Hnone. unfold Part000.isValidUrlResolved. rewrite Hnone.
    reflexivity.
  - intros u Hu Hdns.
    destruct (Part000.isValidUrlResolved E urlString) eqn:Hv; auto.
    apply isValidUrlResolved_iff in Hv.
    destruct Hv as (u' & Hu' & _ & _ & Hres).
    rewrite Hu in Hu'. inversion Hu'; subst u'. congruence.
Qed.

(** A well-formed host that does not resolve, and one that does. *)
Lemma X2_witness :
  Part000.isValidUrlResolved (Sample.env []) (js "https://nosuch.example")
  = false
  /\ Part000.isValidUrlResolved (Sample.env []) (js "https://example.com")
     = true.
Proof.
  destruct (X2_validation_exact (Sample.env []) (js "https://nosuch.example"))
    as (_ & _ & Hdns).
  destruct (X2_validation_exact (Sample.env []) (js "https://example.com"))
    as (Hiff & _).
  split.
  - apply (Hdns {| protocol := js "https:"; hostname := js "nosuch.example";
                   href := js "https://nosuch.example/" |});
      reflexivity.
  - apply Hiff.
    exists {| protocol := js "https:"; hostname := js "example.com";
              href := js "https://example.com/" |}.
    split; [reflexivity|]. split; [right; reflexivity|].
    split; [|reflexivity].
    apply hostname_checks_iff. repeat split.
Defined.

(** X3. White space around the two body fields does not count in the full
    server: a custom code is used in its trimmed form, a custom code that is
    empty or blank is the same as none, and a URL that is not blank is
    handled as its trimmed form.  The shorter server trims the custom code
    in the same way. *)
Theorem X3_surrounding_white_space (E : Env) (now : N)
    (FullUrl : option jsstring) (w : World) :
  (forall customCode,
      Part000.post_shorten E now FullUrl (Some customCode) w
      = Part000.post_shorten E now FullUrl (Some (trim customCode)) w
      /\ Server.post_shorten E now FullUrl (Some customCode) w
         = Server.post_shorten E now FullUrl (Some (trim customCode)) w)
  /\ (forall customCode,
        trim customCode = [] ->
        Part000.post_shorten E now FullUrl (Some customCode) w
        = Part000.post_shorten E now FullUrl None w
        /\ Server.post_shorten E now FullUrl (Some customCode) w
           = Server.post_shorten E now FullUrl None w)
  /\ (forall raw customCode,
        trim raw <> [] ->
        Part000.post_shorten E now (Some raw) customCode w
        = Part000.post_shorten E now (Some (trim raw)) customCode w).
Proof.
  split; [|split].
  - intros cc. apply post_shorten_code_ext.
    symmetry. apply trimmed_or_null_trim_arg.
  - intros cc Hblank. apply post_shorten_code_ext.
    apply trimmed_or_null_blank. exact Hblank.
  - intros raw C Hne. unfold Part000.post_shorten. cbn [falsy].
    assert (Hraw : truthy raw = true).
    { destruct raw; [exfalso; apply Hne; reflexivity | reflexivity]. }
    assert (Ht : truthy (trim raw) = true).
    { destruct (trim raw); [congruence | reflexivity]. }
    rewrite Hraw, Ht, normalize_trim_arg. reflexivity.
Qed.

(** " abc " as a custom code is "abc"; "  " is no custom code. *)
Lemma X3_witness :
  Part000.post_shorten (Sample.env []) 5 (Some (js "example.com"))
    (Some (js "  ")) (Sample.world [])
  = Part000.post_shorten (Sample.env []) 5 (Some (js "example.com"))
      None (Sample.world [])
  /\ Part000.post_shorten (Sample.env []) 5 (Some (js " example.com "))
       (Some (js " abc ")) (Sample.world [])
     = Part000.post_shorten (Sample.env []) 5 (Some (js "example.com"))
         (Some (js " abc ")) (Sample.world []).
Proof.
  destruct (X3_surrounding_white_space (Sample.env []) 5
              (Some (js "example.com")) (Sample.world []))
    as (_ & Hblank & _).
  destruct (X3_surrounding_white_space (Sample.env []) 5
              (Some (js " example.com ")) (Sample.world []))
    as (_ & _ & Hurl).
  split.
  - apply (Hblank (js "  ")). reflexivity.
  - apply (Hurl (js " example.com ") (Some (js " abc "))).
    vm_compute. discriminate.
Defined.

(** X4. The string the full server validates and stores always starts with
    ["http://"] or ["https://"], has no white space at either end, and is
    left as it is when it is submitted again. *)
Theorem X4_normalize_idempotent (raw : jsstring) :
  has_scheme_prefix (Part000.normalize raw)
  /\ trim (Part000.normalize raw) = Part000.normalize raw
  /\ Part000.normalize (Part000.normalize raw) = Part000.normalize raw.
Proof.
  destruct (normalize_shape raw) as [Hpre Htrim].
  split; [exact Hpre|]. split; [exact Htrim|].
  destruct (normalize_prefix (Part000.normalize raw)) as [H _].
  rewrite Htrim in H. exact (H Hpre).
Qed.

(* ================================================================== *)
(** * How the requests compose *)
(* ================================================================== *)

Section Composition.

Variable E : Env.

Lemma taken_app c w rows d :
  taken c {| links := links w ++ rows; drawn := d |}
  = taken c w || existsb (has_code c) rows.
Proof. unfold taken. cbn [links]. apply existsb_app. Qed.

Lemma taken_map (f : Link -> Link) c t d d' :
  (forall l, code (f l) = code l) ->
  taken c {| links := map f t; drawn := d |}
  = taken c {| links := t; drawn := d' |}.
Proof.
  intros Hf. unfold taken. cbn [links].
  induction t as [|x t IH]; simpl; auto.
  unfold has_code at 1. rewrite Hf. fold (has_code c x). rewrite IH.
  reflexivity.
Qed.

Lemma taken_none c w :
  taken c w = false -> forall l, In l (links w) -> has_code c l = false.
Proof.
  unfold taken. intros H l Hl.
  destruct (has_code c l) eqn:Hc; auto.
  assert (existsb (has_code c) (links w) = true)
    by (apply existsb_exists; eauto).
  congruence.
Qed.

Lemma lookup_app_none c (t rows : Table) :
  lookup c t = None -> lookup c (t ++ rows) = lookup c rows.
Proof.
  unfold lookup. induction t as [|x t IH]; simpl; auto.
  destruct (has_code c x); [discriminate | auto].
Qed.

Lemma taken_lookup_none c w : taken c w = false -> lookup c (links w) = None.
Proof.
  intros H. apply lookup_none. intros l Hl.
  apply has_code_false. exact (taken_none c w H l Hl).
Qed.

(** The custom branch on a code that matches the pattern. *)
Lemma post_shorten_custom_ok now raw cc w :
  truthy raw = true ->
  Part000.isValidUrlResolved E (Part000.normalize raw) = true ->
  trim cc <> [] ->
  code_syntax (trim cc) ->
  Part000.post_shorten E now (Some raw) (Some cc) w
  = if taken (trim cc) w
    then (Returned (Render (live_rows w)
                      (Some (js "Custom code already exists"))), w)
    else (Returned (Redirect (js "/")),
          {| links := links w ++ [new_row now (trim cc)
                                          (Part000.normalize raw)];
             drawn := drawn w |}).
Proof.
  intros Hraw Hok Hne Hsyn.
  rewrite (post_shorten_custom E now raw (Some cc) (trim cc) w Hraw Hok
             (trimmed_or_null_trim cc Hne)).
  rewrite custom_branch_run.
  rewrite (proj2 (re_code_syntax (trim cc)) Hsyn). reflexivity.
Qed.

(** A visit of a code whose only row is the last one of the table. *)
Lemma get_code_fresh now c url now' w w' :
  taken c w = false ->
  links w' = links w ++ [new_row now c url] ->
  exists w'',
    Part000.get_code now' c w' = (Returned (Redirect url), w'')
    /\ lookup c (links w'')
       = Some {| code := c; target_url := url; total_clicks := 1;
                 last_clicked := Some now'; created_at := now;
                 deleted := false |}.
Proof.
  intros Hfree Hw'. eexists. rewrite get_code_run, Hw'. cbn [links drawn].
  assert (Hlive : is_live c (new_row now c url) = true).
  { apply is_live_true. split; reflexivity. }
  split.
  - rewrite filter_app, filter_none.
    + cbn [filter app]. rewrite Hlive. reflexivity.
    + intros l Hl. unfold is_live.
      rewrite (taken_none c w Hfree l Hl). reflexivity.
  - cbn [links].
    rewrite lookup_map by (intros; apply click_code).
    rewrite lookup_app_none by (apply taken_lookup_none; exact Hfree).
    unfold lookup. cbn [find].
    rewrite (proj2 (has_code_true c (new_row now c url)) eq_refl).
    cbn [option_map]. rewrite Hlive. reflexivity.
Qed.

(** While a code is deleted no visit of it is answered by a redirect. *)
Lemma handle_deleted r w c l :
  unique_codes w ->
  lookup c (links w) = Some l ->
  deleted l = true ->
  hits c [(r, fst (handle E r w))] = 0%N.
Proof.
  intros Hu Hl Hd.
  destruct r as [now F C|now c'|c'|]; try reflexivity.
  cbn [handle]. destruct (JS.eqb c' c) eqn:Hcc.
  - apply eqb_eq in Hcc. subst c'.
    rewrite get_code_miss; [reflexivity|].
    intros x Hx Hxc.
    pose proof (lookup_unique (links w) x Hu Hx) as H1.
    rewrite Hxc, Hl in H1. inversion H1; subst x. exact Hd.
  - unfold hits. cbn [filter is_hit].
    destruct (fst (Part000.get_code now c' w)) as [[t|s b|rows e]|e];
      rewrite ?Hcc; reflexivity.
Qed.

Lemma serve_deleted rs : forall w c l,
  unique_codes w ->
  lookup c (links w) = Some l ->
  deleted l = true ->
  exists l',
    lookup c (links (snd (serve E rs w))) = Some l'
    /\ deleted l' = true
    /\ hits c (fst (serve E rs w)) = 0%N.
Proof.
  induction rs as [|r rs IH]; intros w c l Hu Hl Hd; cbn [serve].
  - exists l. auto.
  - destruct (handle_clicks E r w c l Hu Hl) as (l1 & Hl1 & _ & Hd1).
    pose proof (handle_unique E r w Hu) as Hu1.
    pose proof (handle_deleted r w c l Hu Hl Hd) as Hh.
    rewrite Hd in Hd1. cbn [orb] in Hd1.
    destruct (handle E r w) as [o w1]. cbn [fst snd] in *.
    destruct (IH w1 c l1 Hu1 Hl1 Hd1) as (l2 & Hl2 & Hd2 & Hh2).
    destruct (serve E rs w1) as [log w2]. cbn [fst snd] in *.
    exists l2. repeat split; auto.
    rewrite hits_cons, Hh, Hh2. reflexivity.
Qed.

(** No request removes a row or changes its code, target or date. *)
Lemma handle_keeps_rows r w :
  exists added,
    map identity_of (links (snd (handle E r w)))
    = map identity_of (links w) ++ added.
Proof.
  destruct r as [now F C|now c|c|]; cbn [handle].
  - destruct (post_shorten_cases E now F C w) as (resp & w' & Hrun & Hres).
    rewrite Hrun. cbn [snd].
    destruct Hres as [msg w' Hl _|raw c w' _ _ _ _ _ Hl _]; rewrite Hl.
    + exists []. rewrite app_nil_r. reflexivity.
    + eexists. rewrite map_app. reflexivity.
  - rewrite get_code_run. cbn [snd links]. exists [].
    rewrite app_nil_r, map_map. apply map_ext. intros l.
    destruct (is_live c l); reflexivity.
  - rewrite post_delete_run. cbn [snd links]. exists [].
    rewrite app_nil_r, map_map. apply map_ext. intros l.
    destruct (has_code c l); reflexivity.
  - exists []. rewrite app_nil_r. reflexivity.
Qed.

Lemma serve_keeps_rows rs : forall w,
  exists added,
    map identity_of (links (snd (serve E rs w)))
    = map identity_of (links w) ++ added.
Proof.
  induction rs as [|r rs IH]; intros w; cbn [serve].
  - exists []. rewrite app_nil_r. reflexivity.
  - destruct (handle_keeps_rows r w) as (a1 & H1).
    destruct (handle E r w) as [o w1]. cbn [snd] in H1.
    destruct (IH w1) as (a2 & H2).
    destruct (serve E rs w1) as [log w2]. cbn [snd] in *.
    exists (a1 ++ a2). rewrite H2, H1, app_assoc. reflexivity.
Qed.

End Composition.

(** X5. In the full server a custom code that matches the pattern is
    accepted once: on a code that has a row, even a deleted one, the answer
    is the page with "Custom code already exists" and nothing changes; on a
    code without a row the link is created, and from then on the same custom
    code is refused, also after the link has been deleted. *)
Theorem X5_custom_code_never_reused (E : Env) (now : N)
    (raw customCode : jsstring) (w : World) :
  truthy raw = true ->
  Part000.isValidUrlResolved E (Part000.normalize raw) = true ->
  trim customCode <> [] ->
  code_syntax (trim customCode) ->
  ((exists l, In l (links w) /\ code l = trim customCode) ->
   Part000.post_shorten E now (Some raw) (Some customCode) w
   = (Returned (Render (live_rows w)
                  (Some (js "Custom code already exists"))), w))
  /\ ((forall l, In l (links w) -> code l <> trim customCode) ->
      exists w1,
        Part000.post_shorten E now (Some raw) (Some customCode) w
        = (Returned (Redirect (js "/")), w1)
        /\ links w1 = links w ++ [new_row now (trim customCode)
                                          (Part000.normalize raw)]
        /\ (forall now',
              Part000.post_shorten E now' (Some raw) (Some customCode) w1
              = (Returned (Render (live_rows w1)
                             (Some (js "Custom code already exists"))), w1))
        /\ (forall now',
              let w2 := snd (Part000.post_delete (trim customCode) w1) in
              Part000.post_shorten E now' (Some raw) (Some customCode) w2
              = (Returned (Render (live_rows w2)
                             (Some (js "Custom code already exists"))), w2))).
Proof.
  intros Hraw Hok Hne Hsyn.
  pose proof (fun now w =>
    post_shorten_custom_ok E now raw customCode w Hraw Hok Hne Hsyn) as Hrun.
  split.
  - intros (l & Hl & Hc). rewrite Hrun.
    assert (Ht : taken (trim customCode) w = true).
    { apply existsb_exists. exists l. split; auto.
      apply has_code_true; exact Hc. }
    rewrite Ht. reflexivity.
  - intros Hnone.
    assert (Ht : taken (trim customCode) w = false).
    { apply taken_false. rewrite in_map_iff.
      intros (l & Hc & Hl). exact (Hnone l Hl Hc). }
    eexists. rewrite Hrun, Ht. split; [reflexivity|].
    split; [reflexivity|]. split.
    + intros now'. rewrite Hrun, taken_app. cbn [existsb].
      rewrite (proj2 (has_code_true (trim customCode)
                        (new_row now (trim customCode)
                                 (Part000.normalize raw))) eq_refl).
      rewrite orb_true_r. reflexivity.
    + intros now'. cbv zeta. rewrite Hrun, post_delete_run.
      cbn [snd links drawn].
      rewrite (taken_map _ (trim customCode) _ _ (drawn w))
        by (intros; apply mark_code).
      rewrite taken_app. cbn [existsb].
      rewrite (proj2 (has_code_true (trim customCode)
                        (new_row now (trim customCode)
                                 (Part000.normalize raw))) eq_refl).
      rewrite orb_true_r. reflexivity.
Qed.

(** "abc" twice: the first request creates the link, the second is
    refused. *)
Lemma X5_witness :
  exists w1,
    Part000.post_shorten (Sample.env []) 5 (Some (js "example.com"))
      (Some (js "abc")) (Sample.world [])
    = (Returned (Redirect (js "/")), w1)
    /\ Part000.post_shorten (Sample.env []) 6 (Some (js "example.com"))
         (Some (js "abc")) w1
       = (Returned (Render (live_rows w1)
                      (Some (js "Custom code already exists"))), w1).
Proof.
  destruct (X5_custom_code_never_reused (Sample.env []) 5
              (js "example.com") (js "abc") (Sample.world []))
    as (_ & Hfree).
  - reflexivity.
  - reflexivity.
  - vm_compute. discriminate.
  - apply re_code_syntax. reflexivity.
  - destruct Hfree as (w1 & Hrun & _ & Hagain & _).
    + intros l [].
    + exists w1. split; [exact Hrun | apply Hagain].
Defined.

(** X6. When [app.post("/shorten")] of the full server adds a row, it
    answers a redirect to "/", and a visit of the new code right after is
    answered by a redirect to the stored target, which is the validated
    string, and leaves the row with one click and the time of the visit. *)
Theorem X6_shorten_then_visit (E : Env) (now : N)
    (FullUrl customCode : option jsstring) (w : World)
    (r : Response) (w' : World) :
  Part000.post_shorten E now FullUrl customCode w = (Returned r, w') ->
  links w' <> links w ->
  exists raw c,
    FullUrl = Some raw
    /\ r = Redirect (js "/")
    /\ links w' = links w ++ [new_row now c (Part000.normalize raw)]
    /\ forall now', exists w'',
         Part000.get_code now' c w'
         = (Returned (Redirect (Part000.normalize raw)), w'')
         /\ lookup c (links w'')
            = Some {| code := c; target_url := Part000.normalize raw;
                      total_clicks := 1; last_clicked := Some now';
                      created_at := now; deleted := false |}.
Proof.
  intros Hrun Hch.
  destruct (post_shorten_cases E now FullUrl customCode w)
    as (r0 & w0 & Hrun0 & Hres).
  rewrite Hrun in Hrun0. inversion Hrun0; subst r0 w0.
  destruct Hres as [msg w' Hl _|raw c w' HF _ _ _ Ht Hl _];
    [congruence|].
  exists raw, c. split; [exact HF|]. split; [reflexivity|].
  split; [exact Hl|].
  intros now'.
  exact (get_code_fresh now c (Part000.normalize raw) now' w w' Ht Hl).
Qed.

(** "example.com/path" is shortened to "aaaaaa"; the visit redirects. *)
Lemma X6_witness :
  fst (Part000.get_code 9 (js "aaaaaa")
         (snd (Part000.post_shorten (Sample.env []) 5
                 (Some (js "example.com/path")) None (Sample.world []))))
  = Returned (Redirect (js "https://example.com/path")).
Proof.
  destruct (X6_shorten_then_visit (Sample.env []) 5
              (Some (js "example.com/path")) None (Sample.world [])
              (Redirect (js "/"))
              (snd (Part000.post_shorten (Sample.env []) 5
                      (Some (js "example.com/path")) None
                      (Sample.world []))))
    as (raw & c & HF & _ & Hl & Hvisit).
  - reflexivity.
  - vm_compute. discriminate.
  - inversion HF; subst raw.
    assert (Hc : c = js "aaaaaa").
    { vm_compute in Hl. inversion Hl. reflexivity. }
    subst c. destruct (Hvisit 9%N) as (w'' & Hget & _).
    rewrite Hget. reflexivity.
Defined.

(** X7. Deletion is for good: on a table with unique codes, once the row of
    a code is deleted it stays deleted through every run of requests, its
    click counter stays as it was, and no visit of the code in the run is
    answered by a redirect. *)
Theorem X7_deleted_for_good (E : Env) (c : jsstring) (l : Link)
    (w : World) (rs : list Request) :
  unique_codes w ->
  lookup c (links w) = Some l ->
  deleted l = true ->
  exists l',
    lookup c (links (snd (serve E rs w))) = Some l'
    /\ deleted l' = true
    /\ total_clicks l' = total_clicks l
    /\ target_url l' = target_url l
    /\ hits c (fst (serve E rs w)) = 0%N.
Proof.
  intros Hu Hl Hd.
  destruct (serve_deleted E rs w c l Hu Hl Hd) as (l' & Hl' & Hd' & Hh).
  destruct (serve_clicks E rs w c l Hu Hl) as (l2 & Hl2 & Hc).
  rewrite Hl' in Hl2. inversion Hl2; subst l2.
  exists l'. split; [exact Hl'|]. split; [exact Hd'|].
  split; [rewrite Hc, Hh; apply N.add_0_r|]. split; [|exact Hh].
  destruct (serve_keeps_rows E rs w) as (added & Hk).
  destruct (lookup_In _ _ _ Hl) as [Hin Hcl].
  destruct (lookup_In _ _ _ Hl') as [Hin' Hcl'].
  clear - Hk Hl Hl'. unfold lookup in *.
  revert Hk Hl'. generalize (links (snd (serve E rs w))) as t'.
  induction (links w) as [|x t IH]; intros t' Hk Hl'; [discriminate|].
  destruct t' as [|x' t'']; [discriminate|].
  cbn [map app] in Hk. inversion Hk as [[Hx1 Hx2 Hx3 Hrest]].
  cbn [find] in *. unfold has_code in *. rewrite Hx1 in Hl'.
  destruct (JS.eqb (code x) c).
  - inversion Hl; inversion Hl'; subst. exact Hx2.
  - exact (IH Hl t'' Hrest Hl').
Qed.

(** A deleted link is visited, deleted again and shortened again. *)
Lemma X7_witness :
  exists l',
    lookup (js "old")
      (links (snd (serve (Sample.env [])
                     [GetCode 1 (js "old"); PostDelete (js "old");
                      PostShorten 2 (Some (js "example.com"))
                                  (Some (js "old"));
                      GetCode 3 (js "old")]
                     (Sample.world
                        [Sample.row "old" "https://example.com/" 9 true]))))
    = Some l'
    /\ deleted l' = true /\ total_clicks l' = 9%N.
Proof.
  destruct (X7_deleted_for_good (Sample.env []) (js "old")
              (Sample.row "old" "https://example.com/" 9 true)
              (Sample.world [Sample.row "old" "https://example.com/" 9 true])
              [GetCode 1 (js "old"); PostDelete (js "old");
               PostShorten 2 (Some (js "example.com")) (Some (js "old"));
               GetCode 3 (js "old")])
    as (l' & Hl' & Hd & Hc & _).
  - unfold unique_codes; simpl. repeat constructor; simpl; tauto.
  - reflexivity.
  - reflexivity.
  - exists l'. split; [exact Hl'|]. split; [exact Hd|exact Hc].
Defined.

(** X8. No run of requests removes a row or changes the code, the target or
    the creation date of a row: the table after the run is the table before
    it, row by row in these three columns, followed by the rows the run
    added. *)
Theorem X8_rows_are_kept (E : Env) (rs : list Request) (w : World) :
  exists added,
    map identity_of (links (snd (serve E rs w)))
    = map identity_of (links w) ++ added
    /\ List.length (links w) <= List.length (links (snd (serve E rs w))).
Proof.
  destruct (serve_keeps_rows E rs w) as (added & Hk).
  exists added. split; [exact Hk|].
  rewrite <- (length_map identity_of (links (snd (serve E rs w)))), Hk.
  rewrite length_app, length_map. lia.
Qed.

(** X9. The codes of the table stay pairwise different, over deleted and
    live rows alike, through every run of requests; in particular every
    table reached from the empty one has unique codes. *)
Theorem X9_codes_stay_unique (E : Env) (rs : list Request) :
  (forall w, unique_codes w -> unique_codes (snd (serve E rs w)))
  /\ (forall d, unique_codes (snd (serve E rs {| links := []; drawn := d |}))).
Proof.
  split.
  - intros w Hu. apply serve_unique. exact Hu.
  - intros d. apply serve_unique. constructor.
Qed.

(** The same custom code asked for twice gives one row. *)
Lemma X9_witness :
  unique_codes
    (snd (serve (Sample.env [])
            [PostShorten 1 (Some (js "example.com")) (Some (js "abc"));
             PostShorten 2 (Some (js "example.com")) (Some (js "abc"));
             PostShorten 3 (Some (js "example.com")) None]
            (Sample.world []))).
Proof.
  destruct (X9_codes_stay_unique (Sample.env [])
              [PostShorten 1 (Some (js "example.com")) (Some (js "abc"));
               PostShorten 2 (Some (js "example.com")) (Some (js "abc"));
               PostShorten 3 (Some (js "example.com")) None]) as [Hkeep _].
  apply Hkeep. unfold unique_codes. constructor.
Defined.

(** X10. The listing follows the requests: the row a creation request adds
    is listed right after, with no clicks and no last visit; after a
    deletion the listing is the one before without the rows of the deleted
    code. *)
Theorem X10_listing_follows (E : Env) :
  (forall now FullUrl customCode w r w',
      Part000.post_shorten E now FullUrl customCode w = (Returned r, w') ->
      links w' <> links w ->
      exists raw c,
        FullUrl = Some raw
        /\ In {| listed_code := c;
                 listed_target_url := Part000.normalize raw;
                 listed_total_clicks := 0; listed_last_clicked := None |}
              (live_rows w')
        /\ forall x, In x (live_rows w) -> In x (live_rows w'))
  /\ (forall c w x,
        In x (live_rows (snd (Part000.post_delete c w)))
        <-> In x (live_rows w) /\ listed_code x <> c).
Proof.
  split.
  - intros now F C w r w' Hrun Hch.
    destruct (post_shorten_cases E now F C w) as (r0 & w0 & Hrun0 & Hres).
    rewrite Hrun in Hrun0. inversion Hrun0; subst r0 w0.
    destruct Hres as [msg w' Hl _|raw c w' HF _ _ _ _ Hl _];
      [congruence|].
    exists raw, c. split; [exact HF|]. split.
    + apply live_rows_In.
      exists (new_row now c (Part000.normalize raw)).
      rewrite Hl. split; [apply in_or_app; right; left; reflexivity|].
      split; reflexivity.
    + intros x Hx. apply live_rows_In in Hx.
      destruct Hx as (l & Hin & Hd & Hx).
      apply live_rows_In. exists l. rewrite Hl.
      split; [apply in_or_app; left; exact Hin|]. auto.
  - intros c w x. rewrite post_delete_run. cbn [snd].
    rewrite !live_rows_In. cbn [links]. split.
    + intros (l' & Hin & Hd & Hx). apply in_map_iff in Hin.
      destruct Hin as (l & Hl' & Hin).
      destruct (has_code c l) eqn:Hc.
      * subst l'. discriminate Hd.
      * subst l'. split; [eauto|].
        rewrite <- Hx. cbn [listed_code columns].
        apply has_code_false. exact Hc.
    + intros [(l & Hin & Hd & Hx) Hne]. exists l.
      split; [|auto].
      apply in_map_iff. exists l. split; auto.
      rewrite (proj2 (has_code_false c l)); auto.
      rewrite <- Hx in Hne. exact Hne.
Qed.

(** "example.com" under the custom code "abc" is listed right after, and
    the row that was listed before it still is. *)
Lemma X10_witness :
  In {| listed_code := js "abc";
        listed_target_url := js "https://example.com";
        listed_total_clicks := 0; listed_last_clicked := None |}
     (live_rows
        (snd (Part000.post_shorten (Sample.env []) 5
                (Some (js "example.com")) (Some (js "abc"))
                (Sample.world
                   [Sample.row "xyz" "https://example.com/" 3 false]))))
  /\ In (columns (Sample.row "xyz" "https://example.com/" 3 false))
        (live_rows
           (snd (Part000.post_shorten (Sample.env []) 5
                   (Some (js "example.com")) (Some (js "abc"))
                   (Sample.world
                      [Sample.row "xyz" "https://example.com/" 3 false])))).
Proof.
  destruct (X10_listing_follows (Sample.env [])) as (Hadd & _).
  destruct (Hadd 5%N (Some (js "example.com")) (Some (js "abc"))
              (Sample.world [Sample.row "xyz" "https://example.com/" 3 false])
              (Redirect (js "/"))
              (snd (Part000.post_shorten (Sample.env []) 5
                      (Some (js "example.com")) (Some (js "abc"))
                      (Sample.world
                         [Sample.row "xyz" "https://example.com/" 3 false]))))
    as (raw & c & HF & Hin & Hold).
  - reflexivity.
  - vm_compute. discriminate.
  - split.
    + vm_compute. left. reflexivity.
    + apply Hold. vm_compute. left. reflexivity.
Defined.

(* ================================================================== *)
(** * The creation request of [src/server.js] *)
(* ================================================================== *)

Section ServerShorten.

Variable E : Env.

Lemma server_custom_branch_run now c url w :
  Server.custom_branch now c url w
  = if taken c w
    then (Returned (Send 409 (js "Custom code already exists")), w)
    else if negb (test Server.re_code c)
    then (Returned (Send 400 (js "Code must be 3-8 letters/digits")), w)
    else (Returned (Redirect (js "/")),
          {| links := links w ++ [new_row now c url]; drawn := drawn w |}).
Proof.
  unfold Server.custom_branch.
  rewrite bind_run. unfold select_code at 1. cbv beta iota.
  rewrite rowCount_select_pos. fold (taken c w).
  destruct (taken c w) eqn:Ht; [reflexivity|].
  destruct (negb (test Server.re_code c)); [reflexivity|].
  rewrite bind_run. unfold insert_link, violation. fold (taken c w).
  rewrite Ht. reflexivity.
Qed.

Lemma server_generated_free now url w i :
  i < 10 ->
  (forall j, j < i -> taken (nth_draw E w j) w = true) ->
  taken (nth_draw E w i) w = false ->
  Server.generated_branch E now url w
  = (Returned (Redirect (js "/")),
     {| links := links w ++ [new_row now (nth_draw E w i) url];
        drawn := drawn w + 6 * S i |}).
Proof.
  intros Hi Hb Hf. unfold Server.generated_branch.
  rewrite bind_run, server_draw_code, (draw_code_free E 10 w i Hi Hb Hf).
  cbv beta iota. rewrite bind_run. unfold insert_link, violation.
  cbn [links]. fold (taken (nth_draw E w i) w). rewrite Hf. reflexivity.
Qed.

Lemma server_post_shorten_parsed now raw customCode url w :
  truthy raw = true ->
  Server.normalize E raw = Some url ->
  Server.post_shorten E now (Some raw) customCode w
  = match trimmed_or_null customCode with
    | Some c => Server.custom_branch now c url w
    | None => Server.generated_branch E now url w
    end.
Proof.
  intros Hraw Hn. unfold Server.post_shorten. cbn [falsy].
  rewrite Hraw, Hn. cbn [negb].
  destruct (trimmed_or_null customCode) as [c|] eqn:HC; [|reflexivity].
  destruct (trimmed_or_null_some _ _ HC) as [-> _]. reflexivity.
Qed.

(** What the shorter server stores as target is what [Server.normalize]
    returns. *)
Lemma server_post_shorten_target now FullUrl customCode w o w' :
  Server.post_shorten E now FullUrl customCode w = (o, w') ->
  links w' <> links w ->
  exists raw url c,
    FullUrl = Some raw
    /\ Server.normalize E raw = Some url
    /\ o = Returned (Redirect (js "/"))
    /\ links w' = links w ++ [new_row now c url].
Proof.
  intros Hrun Hch. unfold Server.post_shorten in Hrun.
  destruct FullUrl as [raw|]; cbn [falsy] in Hrun;
    [|inversion Hrun; subst; congruence].
  destruct (truthy raw) eqn:Hraw; cbn [negb] in Hrun;
    [|inversion Hrun; subst; congruence].
  destruct (Server.normalize E raw) as [url|] eqn:Hn;
    [|inversion Hrun; subst; congruence].
  exists raw, url.
  assert (Hgen : Server.generated_branch E now url w = (o, w') ->
                 exists c, Some raw = Some raw
                           /\ Server.normalize E raw = Some url
                           /\ o = Returned (Redirect (js "/"))
                           /\ links w' = links w ++ [new_row now c url]).
  { intros Hg. destruct (first_free E 10 w) as [(i & Hi & Hb & Hf)|Hall].
    - rewrite (server_generated_free now url w i Hi Hb Hf) in Hg.
      inversion Hg; subst. exists (nth_draw E w i). auto.
    - rewrite (server_no_fallback E now url w Hall) in Hg.
      inversion Hg; subst. cbn [links] in Hch. congruence. }
  destruct (trimmed_or_null customCode) as [c|] eqn:HC;
    [|exact (Hgen Hrun)].
  destruct (trimmed_or_null_some _ _ HC) as [Hc _]. rewrite Hc in Hrun.
  rewrite server_custom_branch_run in Hrun.
  destruct (taken c w); [inversion Hrun; subst; congruence|].
  destruct (negb (test Server.re_code c));
    [inversion Hrun; subst; congruence|].
  inversion Hrun; subst. exists c. auto.
Qed.

End ServerShorten.

(** X11. The shorter server stores the serialisation of the parsed URL: when
    its creation request adds a row, the target of the row is what
    [toString()] returns for [new URL(FullUrl)], or, when that throws, for
    [new URL("https://" + FullUrl)]; when both throw, the answer is 400
    "Invalid URL" and nothing is stored. *)
Theorem X11_server_stores_serialisation (E : Env) (now : N)
    (FullUrl customCode : option jsstring) (w : World) :
  (forall o w',
      Server.post_shorten E now FullUrl customCode w = (o, w') ->
      links w' <> links w ->
      exists raw u c,
        FullUrl = Some raw
        /\ (URL_new E raw = Some u
            \/ URL_new E raw = None
               /\ URL_new E (js "https://" ++ raw) = Some u)
        /\ o = Returned (Redirect (js "/"))
        /\ links w' = links w ++ [new_row now c (href u)])
  /\ (forall raw,
        FullUrl = Some raw ->
        truthy raw = true ->
        URL_new E raw = None ->
        URL_new E (js "https://" ++ raw) = None ->
        Server.post_shorten E now FullUrl customCode w
        = (Returned (Send 400 (js "Invalid URL")), w)).
Proof.
  split.
  - intros o w' Hrun Hch.
    destruct (server_post_shorten_target E now FullUrl customCode w o w'
                Hrun Hch) as (raw & url & c & HF & Hn & Ho & Hl).
    unfold Server.normalize in Hn.
    destruct (URL_new E raw) as [u|] eqn:H1.
    + inversion Hn; subst url. exists raw, u, c. auto.
    + destruct (URL_new E (js "https://" ++ raw)) as [u|] eqn:H2;
        [|discriminate].
      inversion Hn; subst url. exists raw, u, c. auto.
  - intros raw -> Hraw H1 H2. unfold Server.post_shorten. cbn [falsy].
    rewrite Hraw. cbn [negb]. unfold Server.normalize. rewrite H1, H2.
    reflexivity.
Qed.

(** "example.com:443/path" does not parse, "https://example.com:443/path"
    does, and the default port is gone from what is stored; an [ftp] URL is
    stored as it serialises. *)
Lemma X11_witness :
  map target_url
      (links (snd (Server.post_shorten (Sample.env []) 5
                     (Some (js "example.com:443/path")) None
                     (Sample.world []))))
  = [js "https://example.com/path"]
  /\ Server.post_shorten (Sample.env []) 5 (Some (js "exa mple")) None
       (Sample.world [])
     = (Returned (Send 400 (js "Invalid URL")), Sample.world []).
Proof.
  split.
  - destruct (X11_server_stores_serialisation (Sample.env []) 5
                (Some (js "example.com:443/path")) None (Sample.world []))
      as (Hstore & _).
    destruct (Hstore
                (fst (Server.post_shorten (Sample.env []) 5
                        (Some (js "example.com:443/path")) None
                        (Sample.world [])))
                (snd (Server.post_shorten (Sample.env []) 5
                        (Some (js "example.com:443/path")) None
                        (Sample.world []))))
      as (raw & u & c & HF & Hu & _ & Hl).
    + reflexivity.
    + vm_compute. discriminate.
    + rewrite Hl. inversion HF; subst raw.
      destruct Hu as [Hu|[_ Hu]]; vm_compute in Hu; inversion Hu.
      reflexivity.
  - destruct (X11_server_stores_serialisation (Sample.env []) 5
                (Some (js "exa mple")) None (Sample.world []))
      as (_ & Hrefuse).
    apply (Hrefuse (js "exa mple")); reflexivity.
Defined.

(** X12. In the shorter server a custom code is looked up before it is
    checked: with a URL that parses, a code that has a row is answered 409
    "Custom code already exists" whatever its syntax, a code without a row
    that does not match the pattern is answered 400 "Code must be 3-8
    letters/digits", both without a change, and a code without a row that
    matches is inserted with the serialised target. *)
Theorem X12_server_lookup_before_pattern (E : Env) (now : N)
    (raw customCode url : jsstring) (w : World) :
  truthy raw = true ->
  Server.normalize E raw = Some url ->
  trim customCode <> [] ->
  ((exists l, In l (links w) /\ code l = trim customCode) ->
   Server.post_shorten E now (Some raw) (Some customCode) w
   = (Returned (Send 409 (js "Custom code already exists")), w))
  /\ ((forall l, In l (links w) -> code l <> trim customCode) ->
      ~ code_syntax (trim customCode) ->
      Server.post_shorten E now (Some raw) (Some customCode) w
      = (Returned (Send 400 (js "Code must be 3-8 letters/digits")), w))
  /\ ((forall l, In l (links w) -> code l <> trim customCode) ->
      code_syntax (trim customCode) ->
      Server.post_shorten E now (Some raw) (Some customCode) w
      = (Returned (Redirect (js "/")),
         {| links := links w ++ [new_row now (trim customCode) url];
            drawn := drawn w |})).
Proof.
  intros Hraw Hn Hne.
  rewrite (server_post_shorten_parsed E now raw (Some customCode) url w
             Hraw Hn).
  rewrite (trimmed_or_null_trim customCode Hne), server_custom_branch_run.
  change Server.re_code with Part000.re_code.
  assert (Hfree : (forall l, In l (links w) -> code l <> trim customCode) ->
                  taken (trim customCode) w = false).
  { intros Hnone. apply taken_false. rewrite in_map_iff.
    intros (l & Hc & Hl). exact (Hnone l Hl Hc). }
  split; [|split].
  - intros (l & Hl & Hc).
    assert (Ht : taken (trim customCode) w = true).
    { apply existsb_exists. exists l. split; auto.
      apply has_code_true; exact Hc. }
    rewrite Ht. reflexivity.
  - intros Hnone Hbad. rewrite (Hfree Hnone).
    destruct (test Part000.re_code (trim customCode)) eqn:Hre;
      [|reflexivity].
    exfalso. apply Hbad, re_code_syntax, Hre.
  - intros Hnone Hsyn. rewrite (Hfree Hnone).
    rewrite (proj2 (re_code_syntax (trim customCode)) Hsyn). reflexivity.
Qed.

(** "ab" on an empty table is answered 400 by the shorter server. *)
Lemma X12_witness :
  Server.post_shorten (Sample.env []) 5 (Some (js "example.com"))
    (Some (js "ab")) (Sample.world [])
  = (Returned (Send 400 (js "Code must be 3-8 letters/digits")),
     Sample.world []).
Proof.
  destruct (X12_server_lookup_before_pattern (Sample.env []) 5
              (js "example.com") (js "ab") (js "https://example.com/")
              (Sample.world [])) as (_ & Hbad & _).
  - reflexivity.
  - reflexivity.
  - vm_compute. discriminate.
  - apply Hbad.
    + intros l [].
    + intros [_ [Hlen _]]. vm_compute in Hlen. lia.
Defined.

(** X13. Every code the shorter server stores matches the custom-code
    pattern: its creation request adds at most one row, under a code that
    had no row, and a table whose codes all consist of 3 to 8 ASCII letters
    and digits still does after the request. *)
Theorem X13_server_codes_match_pattern (E : Env) (now : N)
    (FullUrl customCode : option jsstring) (w : World) :
  exists o w',
    Server.post_shorten E now FullUrl customCode w = (o, w')
    /\ (links w' = links w
        \/ exists c url,
             links w' = links w ++ [new_row now c url]
             /\ (forall l, In l (links w) -> code l <> c)
             /\ code_syntax c)
    /\ (Forall (fun l => code_syntax (code l)) (links w) ->
        Forall (fun l => code_syntax (code l)) (links w')).
Proof.
  destruct (server_post_shorten_rows E now FullUrl customCode w)
    as (o & w' & Hrun & Hrows).
  exists o, w'. split; [exact Hrun|].
  destruct Hrows as [Hl|(c & url & Hl & Ht & Ha & Hlen)].
  - split; [left; exact Hl|]. rewrite Hl. auto.
  - assert (Hsyn : code_syntax c) by (split; auto).
    split.
    + right. exists c, url. split; [exact Hl|]. split; [|exact Hsyn].
      intros l Hin. apply has_code_false.
      exact (taken_none c w Ht l Hin).
    + intros Hall. rewrite Hl. apply Forall_app. split; auto.
Qed.

(** A custom code on a table whose codes match the pattern. *)
Lemma X13_witness :
  Forall (fun l => code_syntax (code l))
         (links (snd (Server.post_shorten (Sample.env []) 5
                        (Some (js "example.com")) (Some (js "abcd"))
                        (Sample.world
                           [Sample.row "abc" "https://example.com/" 3
                                       false])))).
Proof.
  destruct (X13_server_codes_match_pattern (Sample.env []) 5
              (Some (js "example.com")) (Some (js "abcd"))
              (Sample.world [Sample.row "abc" "https://example.com/" 3 false]))
    as (o & w' & Hrun & _ & Hkeep).
  rewrite Hrun. cbn [snd]. apply Hkeep.
  constructor; [|constructor].
  apply re_code_syntax. reflexivity.
Defined.

(** X14. Without a custom code the shorter server runs the same loop as the
    full one: the first of the ten draws that has no row is inserted with
    the serialised target; but it has no fallback, and when the ten draws
    all have a row the INSERT is sent with [null] as the code. *)
Theorem X14_server_draws_without_fallback (E : Env) (now : N)
    (raw url : jsstring) (customCode : option jsstring) (w : World) :
  truthy raw = true ->
  Server.normalize E raw = Some url ->
  trimmed_or_null customCode = None ->
  (forall n w0, Server.draw_code E n w0 = Part000.draw_code E n w0)
  /\ (forall i,
        i < 10 ->
        (forall j, j < i -> taken (nth_draw E w j) w = true) ->
        taken (nth_draw E w i) w = false ->
        Server.post_shorten E now (Some raw) customCode w
        = (Returned (Redirect (js "/")),
           {| links := links w ++ [new_row now (nth_draw E w i) url];
              drawn := drawn w + 6 * (i + 1) |}))
  /\ ((forall j, j < 10 -> taken (nth_draw E w j) w = true) ->
      Server.post_shorten E now (Some raw) customCode w
      = (_ <- insert_link now None url ;; ret (Redirect (js "/")))
          {| links := links w; drawn := drawn w + 6 * 10 |}).
Proof.
  intros Hraw Hn HC.
  rewrite (server_post_shorten_parsed E now raw customCode url w Hraw Hn).
  rewrite HC.
  split; [|split].
  - intros n w0. apply server_draw_code.
  - intros i Hi Hb Hf.
    rewrite (server_generated_free E now url w i Hi Hb Hf).
    do 3 f_equal. lia.
  - intros Hall. unfold Server.generated_branch.
    rewrite bind_run, server_draw_code, (draw_code_exhausted E 10 w Hall).
    reflexivity.
Qed.

(** On an empty table the first draw is kept. *)
Lemma X14_witness :
  Server.post_shorten (Sample.env []) 5 (Some (js "example.com")) None
    (Sample.world [])
  = (Returned (Redirect (js "/")),
     {| links := [new_row 5 (js "aaaaaa") (js "https://example.com/")];
        drawn := 6 |}).
Proof.
  destruct (X14_server_draws_without_fallback (Sample.env []) 5
              (js "example.com") (js "https://example.com/") None
              (Sample.world []) eq_refl eq_refl eq_refl)
    as (_ & Hfree & _).
  apply (Hfree 0).
  - lia.
  - intros j Hj. lia.
  - reflexivity.
Defined.

(** X15. A URL field that is absent or empty is answered at once, whatever
    the custom code and without a change: by the page with "Please provide a
    URL." in the full server, by 400 "URL required" in the shorter one.  A
    URL of white space only is not taken as missing by the full server: the
    string it validates is ["https://"], and when the parser refuses that
    string the answer is the invalid-URL page. *)
Theorem X15_missing_or_blank_url (E : Env) (now : N)
    (customCode : option jsstring) (w : World) :
  (forall FullUrl,
      FullUrl = None \/ FullUrl = Some [] ->
      Part000.post_shorten E now FullUrl customCode w
      = (Returned (Render (live_rows w) (Some (js "Please provide a URL."))),
         w)
      /\ Server.post_shorten E now FullUrl customCode w
         = (Returned (Send 400 (js "URL required")), w))
  /\ (forall raw,
        raw <> [] ->
        trim raw = [] ->
        Part000.normalize raw = js "https://"
        /\ (URL_new E (js "https://") = None ->
            Part000.post_shorten E now (Some raw) customCode w
            = (Returned (Render (live_rows w) (Some msg_invalid)), w))).
Proof.
  split.
  - intros F [-> | ->]; split; reflexivity.
  - intros raw Hne Hblank.
    assert (Hn : Part000.normalize raw = js "https://").
    { unfold Part000.normalize. rewrite Hblank. reflexivity. }
    split; [exact Hn|]. intros Hparse.
    apply post_shorten_invalid.
    + destruct raw; [congruence | reflexivity].
    + rewrite Hn. unfold Part000.isValidUrlResolved. rewrite Hparse.
      reflexivity.
Qed.

(** Three spaces as the URL: not missing, but invalid. *)
Lemma X15_witness :
  Part000.post_shorten (Sample.env []) 5 (Some (js "   ")) None
    (Sample.world [])
  = (Returned (Render [] (Some msg_invalid)), Sample.world []).
Proof.
  destruct (X15_missing_or_blank_url (Sample.env []) 5 None (Sample.world []))
    as (_ & Hblank).
  destruct (Hblank (js "   ")) as (_ & Hrefused).
  - vm_compute. discriminate.
  - reflexivity.
  - apply Hrefused. reflexivity.
Defined.
